(** * The reference-audio pipeline of the voice-cloning backend

    A shallow embedding of [app/training.py] (the [SimpleTrainer]) and of
    the [/status] and [/synthesize] handlers of [app/api.py], together with
    [app/tts.py], followed by the properties the specification states about
    them.

    The Python code works on the filesystem, a wall clock and a logger; here
    these are the fields of a [World] that every operation threads through a
    small state-and-exception monad [Py]. *)

From Stdlib Require Import List ZArith NArith Lia Bool String Ascii.
From Stdlib Require Import Permutation Sorted.
Import ListNotations.
Local Open Scope string_scope.
Local Open Scope list_scope.
Local Open Scope Z_scope.

Set Implicit Arguments.
Set Warnings "-register-all".

(* ================================================================= *)
(** ** External capabilities *)

(** Modelled from the spec: the Audio Codec Adapter (pydub's
    [AudioSegment]) is an external library, treated by the specification as
    an opaque PCM capability.  A segment is the sequence of its
    one-millisecond frames: [len] is its duration in milliseconds, [add] is
    [+] (append), [empty] is [AudioSegment.empty()] and [slice_from] is the
    slice [seg[start:]] for a start given in milliseconds, negative starts
    counting from the end as Python slices do. *)
Module AudioSegment.

Definition Frame := Z.
Definition t := list Frame.

Definition empty : t := [].

Definition len (a : t) : Z := Z.of_nat (List.length a).

Definition add (a b : t) : t := a ++ b.

Definition slice_from (start : Z) (a : t) : t :=
  let start := Z.min start (len a) in
  let pos := if start <? 0 then len a - Z.abs start else start in
  skipn (Z.to_nat pos) a.

End AudioSegment.

(** What a file under the audio or model directory holds: a WAV encoding of
    a segment ([export] writes it, [from_wav] reads it back), or bytes that
    the decoder rejects. *)
Inductive FileData :=
| Wav (a : AudioSegment.t)
| Undecodable (raw : string).

(** A directory entry: its name, its modification time as [stat] reports it
    and its content.  Every entry is taken to be a file that [stat] can
    read, as the upload handler leaves them: reading [st_mtime] in the sort
    key of [concatenate_audio] does not fail here. *)
Record File := mkFile {
  name : string;
  st_mtime : Z;
  data : FileData
}.

(** Values of Python's [json] module. *)
Inductive Json :=
| JNull
| JBool (b : bool)
| JInt (n : Z)
| JStr (s : string)
| JList (l : list Json)
| JDict (items : list (string * Json)).

(** The text of the status file: [json.dumps] of a value, text that is not
    JSON, or bytes that are not even UTF-8. *)
Inductive StatusText :=
| JsonText (v : Json)
| NonJsonText (s : string)
| NonUtf8 (raw : string).

(** Request text, as the sequence of its Unicode code points. *)
Definition Text := list N.

(** Modelled from the spec: the Synthesis Adapter (ChatterboxTTS) is an
    external model, an opaque capability from a text and a reference file to
    audio.  [load_ok] says whether [from_pretrained] succeeds and [synth]
    gives the generated audio, [None] when the model raises. *)
Record Chatterbox := mkChatterbox {
  load_ok : bool;
  synth : Text -> FileData -> option AudioSegment.t
}.

(* ================================================================= *)
(** ** Exceptions *)

Inductive PyError :=
| ValueError (msg : string)
| CouldntDecodeError (file : string)
| JSONDecodeError
| UnicodeDecodeError
| KeyError (key : string)
| TypeError
| ValidationError
| FileNotFoundError (path : string)
| ModelLoadError
| ModelError.

(** What the code can raise: a Python error or FastAPI's [HTTPException],
    whose [detail] is a literal message or [str(e)]. *)
Inductive Exn :=
| Error (e : PyError)
| HTTPException (status_code : Z) (detail : Detail)
with Detail :=
| Message (s : string)
| StrOf (e : Exn).

(* ================================================================= *)
(** ** Logging and the record of writes *)

Inductive Level := DEBUG | INFO | WARNING | ERROR.

(** One constructor per message the code formats. *)
Inductive LogMessage :=
| Found_audio_files (n : Z)
| Single_file_found (file : string)
| Added (file : string) (ms : Z)
| Failed_to_process (file : string) (e : Exn)
| Trimming_audio (from_ms to_ms : Z)
| Using_all_audio (ms : Z)
| Concatenated_audio_saved (path : string) (ms : Z)
| Status_updated (status_data : Json)
| Starting_training
| Training_completed
| Training_failed (e : Exn)
| Failed_to_get_status (e : Exn)
| Synthesizing_text (prefix : Text)
| Synthesis_failed (e : Exn)
| Loading_model
| Model_loaded
| Generating_speech (prefix : Text)
| Speech_generated (path : string).

Definition LogRecord := (Level * LogMessage)%type.

(** A completed write to one of the two files the pipeline owns. *)
Inductive Write :=
| WriteStatus (v : Json)
| WriteReference (a : AudioSegment.t).

(* ================================================================= *)
(** ** The world *)

(** [audio_dir] is [None] when the directory does not exist, else its
    entries in the order the operating system lists them.  [model_dir] is
    [None] when the directory does not exist, else the content of
    [reference.wav] in it, if any.  [clock n] is the ISO-8601 text of the
    [n]-th reading of [datetime.now()], [ticks] counts the readings so far.
    [log] and [writes] grow at the end. *)
Record World := mkWorld {
  audio_dir : option (list File);
  model_dir : option (option FileData);
  status_file : option StatusText;
  output_wav : option AudioSegment.t;
  clock : nat -> string;
  ticks : nat;
  log : list LogRecord;
  writes : list Write;
  tts_backend : Chatterbox;
  tts_model : bool;
  tts_calls : list Text
}.

Definition set_audio_dir (d : option (list File)) (w : World) : World :=
  mkWorld d (model_dir w) (status_file w) (output_wav w) (clock w) (ticks w)
          (log w) (writes w) (tts_backend w) (tts_model w) (tts_calls w).

Definition set_model_dir (d : option (option FileData)) (w : World) : World :=
  mkWorld (audio_dir w) d (status_file w) (output_wav w) (clock w) (ticks w)
          (log w) (writes w) (tts_backend w) (tts_model w) (tts_calls w).

Definition set_status_file (s : option StatusText) (w : World) : World :=
  mkWorld (audio_dir w) (model_dir w) s (output_wav w) (clock w) (ticks w)
          (log w) (writes w) (tts_backend w) (tts_model w) (tts_calls w).

Definition set_output_wav (o : option AudioSegment.t) (w : World) : World :=
  mkWorld (audio_dir w) (model_dir w) (status_file w) o (clock w) (ticks w)
          (log w) (writes w) (tts_backend w) (tts_model w) (tts_calls w).

Definition set_ticks (n : nat) (w : World) : World :=
  mkWorld (audio_dir w) (model_dir w) (status_file w) (output_wav w) (clock w) n
          (log w) (writes w) (tts_backend w) (tts_model w) (tts_calls w).

Definition set_log (l : list LogRecord) (w : World) : World :=
  mkWorld (audio_dir w) (model_dir w) (status_file w) (output_wav w) (clock w)
          (ticks w) l (writes w) (tts_backend w) (tts_model w) (tts_calls w).

Definition set_writes (l : list Write) (w : World) : World :=
  mkWorld (audio_dir w) (model_dir w) (status_file w) (output_wav w) (clock w)
          (ticks w) (log w) l (tts_backend w) (tts_model w) (tts_calls w).

Definition set_tts_model (b : bool) (w : World) : World :=
  mkWorld (audio_dir w) (model_dir w) (status_file w) (output_wav w) (clock w)
          (ticks w) (log w) (writes w) (tts_backend w) b (tts_calls w).

Definition set_tts_calls (l : list Text) (w : World) : World :=
  mkWorld (audio_dir w) (model_dir w) (status_file w) (output_wav w) (clock w)
          (ticks w) (log w) (writes w) (tts_backend w) (tts_model w) l.

(** The content of [MODEL_DIR / "reference.wav"], if the file exists. *)
Definition reference_wav (w : World) : option FileData :=
  match model_dir w with
  | Some f => f
  | None => None
  end.

(* ================================================================= *)
(** ** The monad of Python computations *)

Inductive Outcome (A : Type) :=
| Return (a : A)
| Raise (e : Exn).

Arguments Return {A} a.
Arguments Raise {A} e.

Definition Py (A : Type) := World -> Outcome A * World.

Definition ret {A} (a : A) : Py A := fun w => (Return a, w).

Definition raise {A} (e : Exn) : Py A := fun w => (Raise e, w).

Definition bind {A B} (c : Py A) (k : A -> Py B) : Py B :=
  fun w =>
    match c w with
    | (Return a, w') => k a w'
    | (Raise e, w') => (Raise e, w')
    end.

(** [try: c except Exception as e: h e]. *)
Definition try_except {A} (c : Py A) (h : Exn -> Py A) : Py A :=
  fun w =>
    match c w with
    | (Return a, w') => (Return a, w')
    | (Raise e, w') => h e w'
    end.

Definition get {A} (f : World -> A) : Py A := fun w => (Return (f w), w).

Definition modify (f : World -> World) : Py unit := fun w => (Return tt, f w).

Declare Scope py_scope.
Delimit Scope py_scope with py.
Notation "x <- c1 ;; c2" := (bind c1 (fun x => c2))
  (at level 61, c1 at next level, right associativity) : py_scope.
Notation "c1 ;; c2" := (bind c1 (fun _ => c2))
  (at level 61, right associativity) : py_scope.
Local Open Scope py_scope.

(** [logger.debug], [logger.info], [logger.warning] and [logger.error]. *)
Definition logger (l : Level) (m : LogMessage) : Py unit :=
  modify (fun w => set_log (log w ++ [(l, m)]) w).

(** [datetime.now().isoformat()]. *)
Definition datetime_now_isoformat : Py string :=
  fun w => (Return (clock w (ticks w)), set_ticks (S (ticks w)) w).

(* ================================================================= *)
(** ** Filesystem primitives *)

(** [s.endswith(suffix)]. *)
Definition endswith (s suffix : string) : bool :=
  let n := String.length s in
  let m := String.length suffix in
  (m <=? n)%nat && String.eqb (substring (n - m) m s) suffix.

(** [list(dir.glob("*.wav"))]: the entries whose name ends in [.wav], in
    listing order; nothing when the directory does not exist. *)
Definition glob_wav (dir : option (list File)) : list File :=
  match dir with
  | Some entries => filter (fun f => endswith (name f) ".wav") entries
  | None => []
  end.

(** [dir.mkdir(parents=True, exist_ok=True)]. *)
Definition mkdir {A} (empty_dir : A) (dir : option A) : option A :=
  match dir with
  | Some d => Some d
  | None => Some empty_dir
  end.

(** [path.exists()]. *)
Definition exists_ {A} (f : option A) : bool :=
  match f with
  | Some _ => true
  | None => false
  end.

(** [AudioSegment.from_wav(str(audio_file))]. *)
Definition from_wav (audio_file : File) : Py AudioSegment.t :=
  match data audio_file with
  | Wav a => ret a
  | Undecodable _ => raise (Error (CouldntDecodeError (name audio_file)))
  end.

Definition reference_path : string := "data/model/reference.wav".

(** [combined.export(str(reference_path), format="wav")]: the file is
    opened for writing in the model directory, which must exist. *)
Definition export_reference (combined : AudioSegment.t) : Py unit :=
  fun w =>
    match model_dir w with
    | Some _ =>
        (Return tt,
         set_writes (writes w ++ [WriteReference combined])
                    (set_model_dir (Some (Some (Wav combined))) w))
    | None => (Raise (Error (FileNotFoundError reference_path)), w)
    end.

(** [self.status_file.write_text(json.dumps(status_data, indent=2))]; the
    parent directory has just been created. *)
Definition write_status (status_data : Json) : Py unit :=
  modify (fun w =>
    set_writes (writes w ++ [WriteStatus status_data])
               (set_status_file (Some (JsonText status_data)) w)).

(** [self.status_file.read_text()]. *)
Definition read_text (t : StatusText) : Py StatusText :=
  match t with
  | NonUtf8 _ => raise (Error UnicodeDecodeError)
  | _ => ret t
  end.

(** [json.loads(text)]. *)
Definition json_loads (t : StatusText) : Py Json :=
  match t with
  | JsonText v => ret v
  | _ => raise (Error JSONDecodeError)
  end.

(* ================================================================= *)
(** ** [sorted(..., key=...)] *)

Section Sorted.

Variable A : Type.
Variable key : A -> Z.

(** Python's [sorted] is stable: an element goes before the first one
    whose key is not smaller than its own. *)
Fixpoint insert_by (x : A) (l : list A) : list A :=
  match l with
  | [] => [x]
  | y :: l' => if key x <=? key y then x :: l else y :: insert_by x l'
  end.

Fixpoint sorted (l : list A) : list A :=
  match l with
  | [] => []
  | x :: l' => insert_by x (sorted l')
  end.

End Sorted.

(* ================================================================= *)
(** ** [app/training.py] *)

Module SimpleTrainer.

Definition max_duration_ms : Z := 20000.

(** The body of the loop over [audio_files]: a clip that decodes is added
    to [combined]; any exception is logged as a warning and the loop goes
    on with [combined] unchanged. *)
Definition add_file (combined : AudioSegment.t) (audio_file : File)
  : Py AudioSegment.t :=
  try_except
    (audio <- from_wav audio_file ;;
     let combined := AudioSegment.add combined audio in
     logger DEBUG (Added (name audio_file) (AudioSegment.len audio)) ;;
     ret combined)
    (fun e =>
       logger WARNING (Failed_to_process (name audio_file) e) ;;
       ret combined).

Fixpoint for_each (audio_files : list File) (combined : AudioSegment.t)
  : Py AudioSegment.t :=
  match audio_files with
  | [] => ret combined
  | audio_file :: rest =>
      combined <- add_file combined audio_file ;;
      for_each rest combined
  end.

(** [SimpleTrainer.concatenate_audio]. *)
Definition concatenate_audio : Py string :=
  modify (fun w => set_audio_dir (mkdir [] (audio_dir w)) w) ;;
  modify (fun w => set_model_dir (mkdir None (model_dir w)) w) ;;
  audio_files <- get (fun w => sorted st_mtime (glob_wav (audio_dir w))) ;;
  match audio_files with
  | [] => raise (Error (ValueError "No audio files found to concatenate"))
  | first :: others =>
      logger INFO (Found_audio_files (Z.of_nat (List.length audio_files))) ;;
      combined <-
        match others with
        | [] =>
            logger INFO (Single_file_found (name first)) ;;
            audio <- from_wav first ;;
            ret audio
        | _ => for_each audio_files AudioSegment.empty
        end ;;
      combined <-
        (if AudioSegment.len combined >? max_duration_ms then
           logger INFO (Trimming_audio (AudioSegment.len combined) max_duration_ms) ;;
           ret (AudioSegment.slice_from (- max_duration_ms) combined)
         else
           logger INFO (Using_all_audio (AudioSegment.len combined)) ;;
           ret combined) ;;
      export_reference combined ;;
      logger INFO (Concatenated_audio_saved reference_path
                     (AudioSegment.len combined)) ;;
      ret reference_path
  end.

(** [SimpleTrainer.update_status]. *)
Definition update_status (status : string) (audio_count : Z) : Py unit :=
  last_trained <- datetime_now_isoformat ;;
  reference_exists <- get (fun w => exists_ (reference_wav w)) ;;
  let status_data :=
    JDict [("status", JStr status);
           ("audio_count", JInt audio_count);
           ("last_trained", JStr last_trained);
           ("model_path",
            if reference_exists then JStr reference_path else JNull)] in
  write_status status_data ;;
  logger INFO (Status_updated status_data).

(** [len(list(self.audio_dir.glob("*.wav")))]. *)
Definition count_wav : Py Z :=
  get (fun w => Z.of_nat (List.length (glob_wav (audio_dir w)))).

(** [SimpleTrainer.get_status]. *)
Definition get_status : Py Json :=
  status_file <- get status_file ;;
  match status_file with
  | None =>
      audio_count <-
        get (fun w =>
               if exists_ (audio_dir w)
               then Z.of_nat (List.length (glob_wav (audio_dir w)))
               else 0) ;;
      ret (JDict [("status", JStr "idle");
                  ("audio_count", JInt audio_count);
                  ("last_trained", JNull);
                  ("model_path", JNull)])
  | Some t =>
      text <- read_text t ;;
      json_loads text
  end.

(** [SimpleTrainer.train]; it has no [await] in it, so it runs in one
    piece. *)
Definition train : Py unit :=
  try_except
    (logger INFO Starting_training ;;
     n <- count_wav ;;
     update_status "training" n ;;
     concatenate_audio ;;
     audio_count <- count_wav ;;
     update_status "ready" audio_count ;;
     logger INFO Training_completed)
    (fun e =>
       logger ERROR (Training_failed e) ;;
       audio_count <- count_wav ;;
       update_status "error" audio_count ;;
       raise e).

End SimpleTrainer.

(* ================================================================= *)
(** ** [app/tts.py] *)

Module SimpleTTS.

Definition output_path : string := "data/output.wav".

(** [SimpleTTS._ensure_model_loaded]. *)
Definition _ensure_model_loaded : Py unit :=
  loaded <- get tts_model ;;
  if loaded then ret tt
  else
    logger INFO Loading_model ;;
    ok <- get (fun w => load_ok (tts_backend w)) ;;
    (if ok then modify (set_tts_model true)
     else raise (Error ModelLoadError)) ;;
    logger INFO Model_loaded.

(** [SimpleTTS.generate]; every call is recorded in [tts_calls]. *)
Definition generate (text : Text) : Py string :=
  modify (fun w => set_tts_calls (tts_calls w ++ [text]) w) ;;
  _ensure_model_loaded ;;
  reference <- get reference_wav ;;
  match reference with
  | None => raise (Error (FileNotFoundError reference_path))
  | Some prompt =>
      logger INFO (Generating_speech (firstn 50 text)) ;;
      generated <- get (fun w => synth (tts_backend w) text prompt) ;;
      match generated with
      | None => raise (Error ModelError)
      | Some wav =>
          modify (set_output_wav (Some wav)) ;;
          logger INFO (Speech_generated output_path) ;;
          ret output_path
      end
  end.

End SimpleTTS.

(* ================================================================= *)
(** ** [app/api.py] *)

(** [c.isspace()] for a code point [c]. *)
Definition isspace (c : N) : bool :=
  (((0x09 <=? c) && (c <=? 0x0D)) || ((0x1C <=? c) && (c <=? 0x20))
   || (c =? 0x85) || (c =? 0xA0) || (c =? 0x1680)
   || ((0x2000 <=? c) && (c <=? 0x200A))
   || (c =? 0x2028) || (c =? 0x2029) || (c =? 0x202F) || (c =? 0x205F)
   || (c =? 0x3000))%N.

Fixpoint lstrip (s : Text) : Text :=
  match s with
  | c :: s' => if isspace c then lstrip s' else s
  | [] => []
  end.

(** [s.strip()]. *)
Definition strip (s : Text) : Text := rev (lstrip (rev (lstrip s))).

Fixpoint lookup (k : string) (items : list (string * Json)) : option Json :=
  match items with
  | [] => None
  | (k', v) :: items' => if String.eqb k k' then Some v else lookup k items'
  end.

(** [d[k]]. *)
Definition getitem (d : Json) (k : string) : Py Json :=
  match d with
  | JDict items =>
      match lookup k items with
      | Some v => ret v
      | None => raise (Error (KeyError k))
      end
  | _ => raise (Error TypeError)
  end.

(** [d.get(k)]; asked only of a value that [getitem] has accepted. *)
Definition dict_get (d : Json) (k : string) : Py Json :=
  match d with
  | JDict items =>
      match lookup k items with
      | Some v => ret v
      | None => ret JNull
      end
  | _ => raise (Error TypeError)
  end.

Module Api.

Record StatusResponse := mkStatusResponse {
  status : string;
  audio_count : Z;
  last_trained : option string
}.

Record FileResponse := mkFileResponse {
  path : string;
  media_type : string;
  filename : string
}.

(** The constructor of the pydantic model [StatusResponse]: a string, an
    integer and a string or [None] are taken as they are; any other value
    is a validation error (pydantic's conversion of numeric strings to
    integers is left out: [Json] values written by the trainer never need
    it). *)
Definition StatusResponse_init (status audio_count last_trained : Json)
  : Py StatusResponse :=
  match status, audio_count, last_trained with
  | JStr s, JInt n, JStr t => ret (mkStatusResponse s n (Some t))
  | JStr s, JInt n, JNull => ret (mkStatusResponse s n None)
  | _, _, _ => raise (Error ValidationError)
  end.

(** [GET /status]. *)
Definition get_status : Py StatusResponse :=
  try_except
    (status <- SimpleTrainer.get_status ;;
     s <- getitem status "status" ;;
     n <- getitem status "audio_count" ;;
     t <- dict_get status "last_trained" ;;
     StatusResponse_init s n t)
    (fun e =>
       logger ERROR (Failed_to_get_status e) ;;
       raise (HTTPException 500 (StrOf e))).

(** [POST /synthesize]. *)
Definition synthesize (text : Text) : Py FileResponse :=
  try_except
    (reference <- get reference_wav ;;
     (if negb (exists_ reference) then
        raise (HTTPException 400
          (Message "No reference audio available. Please upload audio first."))
      else ret tt) ;;
     (match text with
      | [] => raise (HTTPException 400 (Message "Text cannot be empty"))
      | _ =>
          if (List.length (strip text) =? 0)%nat then
            raise (HTTPException 400 (Message "Text cannot be empty"))
          else ret tt
      end) ;;
     (if Z.of_nat (List.length text) >? 500 then
        raise (HTTPException 400 (Message "Text too long (max 500 characters)"))
      else ret tt) ;;
     logger INFO (Synthesizing_text (firstn 50 text)) ;;
     output_path <- SimpleTTS.generate text ;;
     ret (mkFileResponse output_path "audio/wav" "synthesis.wav"))
    (fun e =>
       match e with
       | HTTPException _ _ => raise e
       | Error _ =>
           logger ERROR (Synthesis_failed e) ;;
           raise (HTTPException 500 (StrOf e))
       end).

End Api.

(* ================================================================= *)
(** ** [app/api.py]: the upload handler *)

Module UploadApi.

(** FastAPI's [UploadFile]: the bytes sent and the declared content type. *)
Record UploadFile := mkUploadFile {
  content : string;
  content_type : option string
}.

Record UploadResponse := mkUploadResponse {
  status : string;
  audio_count : Z
}.

Inductive ApiLogMessage :=
| Audio_converted_and_saved (path : string) (bytes : Z)
| Upload_failed (e : Exn).

(** The server the handler runs in: the world of the trainer, and beside it
    what only the handler uses.  Modelled from the spec: [from_file format
    bytes] is the decoder of the Audio Codec Adapter
    ([AudioSegment.from_file]), [None] when it rejects the bytes.
    [fs_time n] is the modification time the filesystem gives a file written
    after [n] readings of the clock.  [tasks] counts the tasks made with
    [asyncio.create_task] that have not run yet. *)
Record Server := mkServer {
  world : World;
  from_file : string -> string -> option AudioSegment.t;
  fs_time : nat -> Z;
  api_log : list (Level * ApiLogMessage);
  tasks : nat
}.

Definition set_world (w : World) (s : Server) : Server :=
  mkServer w (from_file s) (fs_time s) (api_log s) (tasks s).

Definition set_api_log (l : list (Level * ApiLogMessage)) (s : Server) : Server :=
  mkServer (world s) (from_file s) (fs_time s) l (tasks s).

Definition set_tasks (n : nat) (s : Server) : Server :=
  mkServer (world s) (from_file s) (fs_time s) (api_log s) n.

(** Computations of the handler: state and exceptions, over [Server]. *)
Definition Srv (A : Type) := Server -> Outcome A * Server.

Definition sret {A} (a : A) : Srv A := fun s => (Return a, s).

Definition sraise {A} (e : Exn) : Srv A := fun s => (Raise e, s).

Definition sbind {A B} (c : Srv A) (k : A -> Srv B) : Srv B :=
  fun s =>
    match c s with
    | (Return a, s') => k a s'
    | (Raise e, s') => (Raise e, s')
    end.

Definition stry {A} (c : Srv A) (h : Exn -> Srv A) : Srv A :=
  fun s =>
    match c s with
    | (Return a, s') => (Return a, s')
    | (Raise e, s') => h e s'
    end.

(** A computation on the world, run inside the server. *)
Definition lift {A} (c : Py A) : Srv A :=
  fun s =>
    match c (world s) with
    | (o, w') => (o, set_world w' s)
    end.

Definition sget {A} (f : Server -> A) : Srv A := fun s => (Return (f s), s).

Declare Scope srv_scope.
Delimit Scope srv_scope with srv.
Notation "x <- c1 ;; c2" := (sbind c1 (fun x => c2))
  (at level 61, c1 at next level, right associativity) : srv_scope.
Notation "c1 ;; c2" := (sbind c1 (fun _ => c2))
  (at level 61, right associativity) : srv_scope.
Local Open Scope srv_scope.

Definition api_logger (l : Level) (m : ApiLogMessage) : Srv unit :=
  fun s => (Return tt, set_api_log (api_log s ++ [(l, m)]) s).

(** [needle in haystack], for strings. *)
Fixpoint contains (needle haystack : string) : bool :=
  match haystack with
  | EmptyString => prefix needle haystack
  | String _ rest => prefix needle haystack || contains needle rest
  end.

(** The format the content type selects. *)
Definition input_format (content_type : option string) : string :=
  match content_type with
  | None => "wav"
  | Some EmptyString => "wav"
  | Some ct =>
      if contains "webm" ct then "webm"
      else if contains "mp4" ct || contains "m4a" ct then "mp4"
      else "wav"
  end.

(** [datetime.now().strftime("%Y%m%d_%H%M%S")], read off the ISO-8601 text
    [YYYY-MM-DDTHH:MM:SS...] of the same instant. *)
Definition strftime_Ymd_HMS (iso : string) : string :=
  String.append (substring 0 4 iso)
    (String.append (substring 5 2 iso)
       (String.append (substring 8 2 iso)
          (String.append "_"
             (String.append (substring 11 2 iso)
                (String.append (substring 14 2 iso) (substring 17 2 iso)))))).

(** Writing a file into a directory: a file of that name is replaced where
    it stands, a new name is listed last. *)
Fixpoint write_file (f : File) (entries : list File) : list File :=
  match entries with
  | [] => [f]
  | e :: rest =>
      if String.eqb (name e) (name f) then f :: rest
      else e :: write_file f rest
  end.

(** [audio.export(str(wav_filepath), format="wav")]. *)
Definition export_clip (wav_filename : string) (audio : AudioSegment.t)
  : Srv unit :=
  fun s =>
    match audio_dir (world s) with
    | Some entries =>
        let f := mkFile wav_filename (fs_time s (ticks (world s))) (Wav audio) in
        (Return tt,
         set_world (set_audio_dir (Some (write_file f entries)) (world s)) s)
    | None => (Raise (Error (FileNotFoundError wav_filename)), s)
    end.

(** [asyncio.create_task(delayed_train())]. *)
Definition create_task : Srv unit :=
  fun s => (Return tt, set_tasks (S (tasks s)) s).

(** [POST /upload].  The temporary file that holds the content for the
    decoder is created and removed within the call and is not tracked. *)
Definition upload_audio (file : UploadFile) : Srv UploadResponse :=
  stry
    (lift (modify (fun w => set_audio_dir (mkdir [] (audio_dir w)) w)) ;;
     now <- lift datetime_now_isoformat ;;
     let timestamp := strftime_Ymd_HMS now in
     let content := content file in
     let input_format := input_format (content_type file) in
     decoded <- sget (fun s => from_file s input_format content) ;;
     match decoded with
     | Some audio =>
         let wav_filename := String.append timestamp ".wav" in
         export_clip wav_filename audio ;;
         api_logger INFO
           (Audio_converted_and_saved wav_filename
              (Z.of_nat (String.length content)))
     | None =>
         sraise (Error (CouldntDecodeError (String.append "tmp." input_format)))
     end ;;
     audio_count <- lift SimpleTrainer.count_wav ;;
     create_task ;;
     sret (mkUploadResponse "success" audio_count))
    (fun e =>
       api_logger ERROR (Upload_failed e) ;;
       sraise (HTTPException 500 (StrOf e))).

(** The task the handler creates: [asyncio.sleep(0.5)], which changes
    nothing in the world, then [trainer_service.train()]. *)
Definition delayed_train : Py unit := SimpleTrainer.train.

(** Modelled from the spec: the pipeline is triggered fire-and-forget.  The
    event loop runs one pending task to its end; what the task raises goes
    to the loop's log and to no caller. *)
Definition run_task : Srv unit :=
  fun s =>
    match tasks s with
    | O => (Return tt, s)
    | S n =>
        match delayed_train (world s) with
        | (_, w') => (Return tt, set_tasks n (set_world w' s))
        end
    end.

End UploadApi.

(* ================================================================= *)
(** ** Vocabulary of the specification *)

Import SimpleTrainer.

(** The PCM data of a clip (nothing, for a file that does not decode), its
    duration in milliseconds and whether it decodes. *)
Definition pcm (f : File) : AudioSegment.t :=
  match data f with
  | Wav a => a
  | Undecodable _ => AudioSegment.empty
  end.

Definition duration (f : File) : Z := AudioSegment.len (pcm f).

Definition decodable (f : File) : bool :=
  match data f with
  | Wav _ => true
  | Undecodable _ => false
  end.

Definition total_duration (clips : list File) : Z :=
  fold_right (fun f acc => duration f + acc) 0 clips.

(** The AudioClips on disk, as listed, and in the order the pipeline
    processes them. *)
Definition clips_on_disk (w : World) : list File := glob_wav (audio_dir w).

Definition clips_in_order (w : World) : list File :=
  sorted st_mtime (clips_on_disk w).

(** The step "use last 20s (or all if less)" and the line it logs. *)
Definition keep_last (combined : AudioSegment.t) : AudioSegment.t :=
  if AudioSegment.len combined >? max_duration_ms
  then AudioSegment.slice_from (- max_duration_ms) combined
  else combined.

Definition keep_last_log (combined : AudioSegment.t) : LogRecord :=
  if AudioSegment.len combined >? max_duration_ms
  then (INFO, Trimming_audio (AudioSegment.len combined)
                max_duration_ms)
  else (INFO, Using_all_audio (AudioSegment.len combined)).

(** What one turn of the loop logs for a file. *)
Definition loop_log (f : File) : LogRecord :=
  match data f with
  | Wav a => (DEBUG, Added (name f) (AudioSegment.len a))
  | Undecodable _ =>
      (WARNING, Failed_to_process (name f) (Error (CouldntDecodeError (name f))))
  end.

(** The record [update_status] writes. *)
Definition status_record (status : string) (audio_count : Z)
           (last_trained : string) (reference_exists : bool) : Json :=
  JDict [("status", JStr status);
         ("audio_count", JInt audio_count);
         ("last_trained", JStr last_trained);
         ("model_path", if reference_exists then JStr reference_path else JNull)].

(** The record [get_status] synthesizes when none is stored. *)
Definition default_record (audio_count : Z) : Json :=
  JDict [("status", JStr "idle");
         ("audio_count", JInt audio_count);
         ("last_trained", JNull);
         ("model_path", JNull)].

(** A stored status text that [json.loads(read_text())] cannot turn into a
    value. *)
Definition unparsable (t : StatusText) : bool :=
  match t with
  | JsonText _ => false
  | NonJsonText _ | NonUtf8 _ => true
  end.

(** A list in ascending order of [key]. *)
Definition ascending {A} (key : A -> Z) : list A -> Prop :=
  StronglySorted (fun a b => key a <= key b).

(** The number of clips [train] measures, and the three records it can
    write, as functions of the world it starts in. *)
Definition clip_count (w : World) : Z := Z.of_nat (List.length (clips_on_disk w)).

Definition training_record (w : World) : Json :=
  status_record "training" (clip_count w) (clock w (ticks w))
                (exists_ (reference_wav w)).

Definition ready_record (w : World) : Json :=
  status_record "ready" (clip_count w) (clock w (S (ticks w))) true.

Definition error_record (w : World) : Json :=
  status_record "error" (clip_count w) (clock w (S (ticks w)))
                (exists_ (reference_wav w)).

(** What a successful [concatenate_audio] logs, given the lines of the
    branch it took and the audio it combined. *)
Definition concatenation_log (w : World) (branch : list LogRecord)
           (combined : AudioSegment.t) : list LogRecord :=
  (INFO, Found_audio_files (Z.of_nat (List.length (clips_in_order w))))
  :: branch
  ++ [keep_last_log combined;
      (INFO, Concatenated_audio_saved reference_path
               (AudioSegment.len (keep_last combined)))].

(** The world a successful [train] leaves. *)
Definition trained (w : World) (branch : list LogRecord)
           (combined : AudioSegment.t) : World :=
  mkWorld (mkdir [] (audio_dir w))
          (Some (Some (Wav (keep_last combined))))
          (Some (JsonText (ready_record w)))
          (output_wav w) (clock w) (S (S (ticks w)))
          (log w
           ++ [(INFO, Starting_training);
               (INFO, Status_updated (training_record w))]
           ++ concatenation_log w branch combined
           ++ [(INFO, Status_updated (ready_record w));
               (INFO, Training_completed)])
          (writes w
           ++ [WriteStatus (training_record w);
               WriteReference (keep_last combined);
               WriteStatus (ready_record w)])
          (tts_backend w) (tts_model w) (tts_calls w).

(** The world a [train] that raises [e] leaves, [before] being what
    [concatenate_audio] logged before it raised. *)
Definition failed (w : World) (before : list LogRecord) (e : Exn) : World :=
  mkWorld (mkdir [] (audio_dir w))
          (mkdir None (model_dir w))
          (Some (JsonText (error_record w)))
          (output_wav w) (clock w) (S (S (ticks w)))
          (log w
           ++ [(INFO, Starting_training);
               (INFO, Status_updated (training_record w))]
           ++ before
           ++ [(ERROR, Training_failed e);
               (INFO, Status_updated (error_record w))])
          (writes w
           ++ [WriteStatus (training_record w);
               WriteStatus (error_record w)])
          (tts_backend w) (tts_model w) (tts_calls w).

(* ================================================================= *)
(** ** Worlds used as examples *)

Definition no_backend : Chatterbox := mkChatterbox false (fun _ _ => None).

(** A fresh installation: no directories, no files. *)
Definition fresh_world : World :=
  mkWorld None None None None (fun _ => "2024-05-01T12:00:00") 0 [] []
          no_backend false [].

Definition clip_a : File := mkFile "20240501_120000.wav" 100 (Wav [1; 2; 3]).
Definition clip_b : File := mkFile "20240501_120005.wav" 105 (Wav [4; 5]).
Definition bad_clip : File := mkFile "20240501_120003.wav" 103 (Undecodable "RIFX").
Definition bad_clip' : File := mkFile "20240501_120004.wav" 104 (Undecodable "RIFF").
Definition notes : File := mkFile "notes.txt" 99 (Undecodable "not audio").

(** Two clips, listed newest first, next to a file that is not a clip. *)
Definition two_clips : World :=
  set_audio_dir (Some [clip_b; notes; clip_a]) fresh_world.

(** Two clips around one that does not decode. *)
Definition mixed_clips : World :=
  set_audio_dir (Some [clip_a; bad_clip; clip_b]) fresh_world.

(** Two files, neither of which decodes. *)
Definition broken_clips : World :=
  set_audio_dir (Some [bad_clip; bad_clip']) fresh_world.

Definition one_clip : World := set_audio_dir (Some [clip_a]) fresh_world.

(** A single clip of 20001 ms. *)
Definition long_audio : AudioSegment.t := repeat 0 (Z.to_nat 20001).
Definition long_clip : File := mkFile "20240501_130000.wav" 200 (Wav long_audio).
Definition long_clip_world : World :=
  set_audio_dir (Some [long_clip]) fresh_world.

(** A status file holding an opening brace and nothing else. *)
Definition corrupt_status : World :=
  set_status_file (Some (NonJsonText "{")) two_clips.

(* ================================================================= *)
(** ** Vocabulary for the other handlers *)

(** What [GET /status] makes of a stored value. *)
Definition response_of (v : Json) : Outcome Api.StatusResponse :=
  match v with
  | JDict items =>
      match lookup "status" items with
      | None => Raise (Error (KeyError "status"))
      | Some s =>
          match lookup "audio_count" items with
          | None => Raise (Error (KeyError "audio_count"))
          | Some n =>
              let t := match lookup "last_trained" items with
                       | Some t => t
                       | None => JNull
                       end in
              match s, n, t with
              | JStr s, JInt n, JStr t =>
                  Return (Api.mkStatusResponse s n (Some t))
              | JStr s, JInt n, JNull =>
                  Return (Api.mkStatusResponse s n None)
              | _, _, _ => Raise (Error ValidationError)
              end
          end
      end
  | _ => Raise (Error TypeError)
  end.

(** The pipeline's own state is the same in two worlds. *)
Definition same_pipeline_state (w w' : World) : Prop :=
  audio_dir w' = audio_dir w /\ model_dir w' = model_dir w
  /\ status_file w' = status_file w /\ writes w' = writes w
  /\ ticks w' = ticks w.

(** The name [upload_audio] gives the clip it stores in server [s], and the
    clip itself. *)
Definition upload_name (s : UploadApi.Server) : string :=
  String.append
    (UploadApi.strftime_Ymd_HMS
       (clock (UploadApi.world s) (ticks (UploadApi.world s))))
    ".wav".

Definition uploaded_clip (s : UploadApi.Server) (audio : AudioSegment.t) : File :=
  mkFile (upload_name s)
         (UploadApi.fs_time s (S (ticks (UploadApi.world s))))
         (Wav audio).

(** The test of [glob("*.wav")] on an entry, and having the name of [c]. *)
Definition is_wav (f : File) : bool := endswith (name f) ".wav".

Definition same_name (c f : File) : bool := String.eqb (name f) (name c).

(** The entries of a directory, none when it does not exist. *)
Definition entries_of (dir : option (list File)) : list File :=
  match dir with
  | Some entries => entries
  | None => []
  end.

(** The server right after an accepted upload. *)
Definition uploaded (s : UploadApi.Server) (audio : AudioSegment.t)
           (bytes : Z) : UploadApi.Server :=
  UploadApi.mkServer
    (set_ticks (S (ticks (UploadApi.world s)))
       (set_audio_dir
          (Some (UploadApi.write_file (uploaded_clip s audio)
                   (entries_of (audio_dir (UploadApi.world s)))))
          (UploadApi.world s)))
    (UploadApi.from_file s) (UploadApi.fs_time s)
    (UploadApi.api_log s
     ++ [(INFO, UploadApi.Audio_converted_and_saved (upload_name s) bytes)])
    (S (UploadApi.tasks s)).

(** A decoder that accepts WebM only, and a server around a fresh world. *)
Definition webm_only (format bytes : string) : option AudioSegment.t :=
  if String.eqb format "webm" then Some [1; 2; 3] else None.

Definition fresh_server : UploadApi.Server :=
  UploadApi.mkServer fresh_world webm_only (fun n => Z.of_nat n) [] 0.

Definition webm_upload : UploadApi.UploadFile :=
  UploadApi.mkUploadFile "webm bytes" (Some "audio/webm;codecs=opus").

Definition wav_upload : UploadApi.UploadFile :=
  UploadApi.mkUploadFile "wav bytes" (Some "audio/wav").

(** An old short clip and, after it, the clip of 20001 ms. *)
Definition old_and_long : World :=
  set_audio_dir (Some [long_clip; clip_a]) fresh_world.

(** The world a run over [two_clips] leaves. *)
Definition after_two_clips : World := snd (train two_clips).

(** Stored status values of unusual shape. *)
Definition with_status (v : Json) : World :=
  set_status_file (Some (JsonText v)) two_clips.

(** A backend that loads and answers every text with one second of
    silence, and the world after a run with that backend in place. *)
Definition silence_backend : Chatterbox :=
  mkChatterbox true (fun _ _ => Some (repeat 0 1000%nat)).

Definition ready_to_speak : World :=
  mkWorld (audio_dir after_two_clips) (model_dir after_two_clips)
          (status_file after_two_clips) (output_wav after_two_clips)
          (clock after_two_clips) (ticks after_two_clips)
          (log after_two_clips) (writes after_two_clips)
          silence_backend false (tts_calls after_two_clips).

(* ================================================================= *)
(** ** Lists, sorting and segments *)

Unset Implicit Arguments.

Section SortedFacts.

Variable A : Type.
Variable key : A -> Z.

Lemma insert_by_perm (x : A) (l : list A) :
  Permutation (insert_by key x l) (x :: l).
Proof.
  induction l as [|y l IH]; simpl.
  - apply Permutation_refl.
  - destruct (key x <=? key y).
    + apply Permutation_refl.
    + apply perm_trans with (y :: x :: l).
      * apply perm_skip, IH.
      * apply perm_swap.
Qed.

Lemma sorted_perm (l : list A) : Permutation (sorted key l) l.
Proof.
  induction l as [|x l IH]; simpl.
  - apply perm_nil.
  - apply perm_trans with (x :: sorted key l).
    + apply insert_by_perm.
    + apply perm_skip, IH.
Qed.

Lemma sorted_length (l : list A) : List.length (sorted key l) = List.length l.
Proof. apply Permutation_length, sorted_perm. Qed.

Lemma sorted_nil_iff (l : list A) : sorted key l = [] <-> l = [].
Proof.
  split; intros H.
  - apply length_zero_iff_nil. rewrite <- sorted_length, H. reflexivity.
  - subst l. reflexivity.
Qed.

Lemma insert_by_ascending (x : A) (l : list A) :
  ascending key l -> ascending key (insert_by key x l).
Proof.
  unfold ascending. induction 1 as [|y l Hl IH Hy]; simpl.
  - repeat constructor.
  - destruct (key x <=? key y) eqn:E.
    + apply Z.leb_le in E. constructor.
      * constructor; assumption.
      * constructor; [assumption|].
        eapply Forall_impl; [|exact Hy]. simpl. intros; lia.
    + apply Z.leb_gt in E. constructor; [assumption|].
      eapply Permutation_Forall.
      * apply Permutation_sym, insert_by_perm.
      * constructor; [lia | assumption].
Qed.

Lemma sorted_ascending (l : list A) : ascending key (sorted key l).
Proof.
  induction l as [|x l IH]; simpl.
  - constructor.
  - apply insert_by_ascending, IH.
Qed.

(** Stability: elements of equal key keep their listing order. *)
Lemma insert_by_stable (k : Z) (x : A) (l : list A) :
  filter (fun a => key a =? k) (insert_by key x l)
  = filter (fun a => key a =? k) (x :: l).
Proof.
  induction l as [|y l IH]; [reflexivity|].
  simpl insert_by. destruct (key x <=? key y) eqn:E; [reflexivity|].
  apply Z.leb_gt in E. simpl in *. rewrite IH.
  destruct (key x =? k) eqn:Ex, (key y =? k) eqn:Ey; try reflexivity.
  apply Z.eqb_eq in Ex, Ey. lia.
Qed.

Lemma sorted_stable (k : Z) (l : list A) :
  filter (fun a => key a =? k) (sorted key l)
  = filter (fun a => key a =? k) l.
Proof.
  induction l as [|x l IH]; [reflexivity|].
  simpl sorted. rewrite insert_by_stable. simpl. rewrite IH. reflexivity.
Qed.

End SortedFacts.

Lemma total_duration_perm (l l' : list File) :
  Permutation l l' -> total_duration l = total_duration l'.
Proof.
  induction 1; simpl; try lia.
Qed.

Lemma len_flat_map_pcm (l : list File) :
  AudioSegment.len (flat_map pcm l) = total_duration l.
Proof.
  unfold AudioSegment.len. induction l as [|f l IH]; simpl; [reflexivity|].
  rewrite length_app, Nat2Z.inj_add, IH. reflexivity.
Qed.

Lemma flat_map_pcm_decodable (l : list File) :
  flat_map pcm (filter decodable l) = flat_map pcm l.
Proof.
  induction l as [|f l IH]; simpl; [reflexivity|].
  destruct (decodable f) eqn:D; simpl.
  - f_equal. exact IH.
  - rewrite IH. unfold decodable in D. unfold pcm at 2.
    destruct (data f); [discriminate | reflexivity].
Qed.

Lemma len_nonneg (a : AudioSegment.t) : 0 <= AudioSegment.len a.
Proof. unfold AudioSegment.len. lia. Qed.

(** The trailing part that [keep_last] keeps. *)
Lemma keep_last_long (a : AudioSegment.t) :
  AudioSegment.len a > max_duration_ms ->
  keep_last a
  = skipn (Z.to_nat (AudioSegment.len a - max_duration_ms)) a.
Proof.
  intros H. unfold keep_last, AudioSegment.slice_from.
  unfold max_duration_ms in *.
  destruct (AudioSegment.len a >? 20000) eqn:E; [|lia].
  rewrite Z.min_l by lia. reflexivity.
Qed.

Lemma keep_last_short (a : AudioSegment.t) :
  AudioSegment.len a <= max_duration_ms -> keep_last a = a.
Proof.
  intros H. unfold keep_last.
  destruct (AudioSegment.len a >? max_duration_ms) eqn:E;
    [lia | reflexivity].
Qed.

Lemma keep_last_suffix (a : AudioSegment.t) :
  exists dropped, a = dropped ++ keep_last a.
Proof.
  destruct (Z_gt_le_dec (AudioSegment.len a) max_duration_ms)
    as [H|H].
  - rewrite (keep_last_long a H).
    eexists. symmetry. apply firstn_skipn.
  - rewrite (keep_last_short a H). exists []. reflexivity.
Qed.

Lemma len_keep_last (a : AudioSegment.t) :
  AudioSegment.len (keep_last a)
  = Z.min (AudioSegment.len a) max_duration_ms.
Proof.
  destruct (Z_gt_le_dec (AudioSegment.len a) max_duration_ms)
    as [H|H].
  - rewrite (keep_last_long a H). unfold AudioSegment.len in *.
    rewrite length_skipn. unfold max_duration_ms in *. lia.
  - rewrite (keep_last_short a H). lia.
Qed.

(* ================================================================= *)
(** ** Running the trainer *)

Lemma glob_wav_mkdir (d : option (list File)) : glob_wav (mkdir [] d) = glob_wav d.
Proof. destruct d; reflexivity. Qed.

Lemma exists_mkdir (d : option (option FileData)) :
  exists_ match mkdir None d with Some f => f | None => None end
  = exists_ match d with Some f => f | None => None end.
Proof. destruct d; reflexivity. Qed.

Ltac fields :=
  cbn [audio_dir model_dir status_file output_wav clock ticks log writes
       tts_backend tts_model tts_calls set_audio_dir set_model_dir
       set_status_file set_output_wav set_ticks set_log set_writes
       set_tts_model set_tts_calls].

Lemma for_each_spec (files : list File) :
  forall combined w,
    for_each files combined w
    = (Return (combined ++ flat_map pcm files),
       set_log (log w ++ map loop_log files) w).
Proof.
  induction files as [|f files IH]; intros combined w.
  - simpl. unfold ret. rewrite !app_nil_r. destruct w; reflexivity.
  - simpl for_each. simpl flat_map. simpl map.
    unfold bind at 1. unfold add_file, try_except, from_wav, pcm at 1, loop_log at 1.
    destruct (data f) eqn:E; unfold bind, logger, modify, ret, raise;
      rewrite IH; fields; unfold AudioSegment.add, AudioSegment.empty;
      rewrite <- ?app_assoc, ?app_nil_l; destruct w; reflexivity.
Qed.

Ltac run_python :=
  cbv beta iota zeta delta
    [train try_except bind count_wav update_status concatenate_audio
     logger modify get datetime_now_isoformat write_status export_reference
     from_wav ret raise reference_wav
     audio_dir model_dir status_file output_wav clock ticks log writes
     tts_backend tts_model tts_calls set_audio_dir set_model_dir
     set_status_file set_output_wav set_ticks set_log set_writes
     set_tts_model set_tts_calls].

Ltac unfold_outcome :=
  unfold trained, failed, ready_record, training_record, error_record,
    clip_count, concatenation_log, clips_in_order, clips_on_disk,
    reference_wav; fields.

Lemma model_dir_mkdir (d : option (option FileData)) :
  exists f, mkdir None d = Some f /\ f = match d with Some f => f | None => None end.
Proof. destruct d; eexists; split; reflexivity. Qed.

Lemma train_no_clips (w : World) :
  clips_in_order w = [] ->
  train w
  = (Raise (Error (ValueError "No audio files found to concatenate")),
     failed w [] (Error (ValueError "No audio files found to concatenate"))).
Proof.
  destruct w as [ad md sf ow ck tk lg wr be tm tc].
  unfold clips_in_order, clips_on_disk. fields. intros H.
  run_python. rewrite glob_wav_mkdir, H. run_python. unfold_outcome. fields.
  rewrite ?exists_mkdir, ?glob_wav_mkdir, <- ?app_assoc. reflexivity.
Qed.

Lemma train_single_clip (w : World) (f : File) (a : AudioSegment.t) :
  clips_in_order w = [f] -> data f = Wav a ->
  train w = (Return tt, trained w [(INFO, Single_file_found (name f))] a).
Proof.
  destruct w as [ad md sf ow ck tk lg wr be tm tc].
  unfold clips_in_order, clips_on_disk. fields. intros H E.
  run_python. rewrite glob_wav_mkdir, H. run_python. rewrite E. run_python.
  unfold_outcome. rewrite H. unfold keep_last, keep_last_log.
  destruct (model_dir_mkdir md) as [m [-> _]].
  destruct (AudioSegment.len a >? max_duration_ms); fields;
    rewrite ?glob_wav_mkdir, <- !app_assoc; reflexivity.
Qed.

Lemma train_single_undecodable (w : World) (f : File) (raw : string) :
  clips_in_order w = [f] -> data f = Undecodable raw ->
  train w
  = (Raise (Error (CouldntDecodeError (name f))),
     failed w [(INFO, Found_audio_files 1); (INFO, Single_file_found (name f))]
            (Error (CouldntDecodeError (name f)))).
Proof.
  destruct w as [ad md sf ow ck tk lg wr be tm tc].
  unfold clips_in_order, clips_on_disk. fields. intros H E.
  run_python. rewrite glob_wav_mkdir, H. run_python. rewrite E. run_python.
  unfold_outcome. rewrite ?exists_mkdir, ?glob_wav_mkdir, <- ?app_assoc. reflexivity.
Qed.

Lemma train_many_clips (w : World) (f g : File) (rest : list File) :
  clips_in_order w = f :: g :: rest ->
  train w
  = (Return tt,
     trained w (map loop_log (f :: g :: rest)) (flat_map pcm (f :: g :: rest))).
Proof.
  destruct w as [ad md sf ow ck tk lg wr be tm tc].
  unfold clips_in_order, clips_on_disk. fields. intros H.
  run_python. rewrite glob_wav_mkdir, H. run_python. rewrite for_each_spec. run_python.
  unfold_outcome. rewrite H. unfold keep_last, keep_last_log.
  destruct (model_dir_mkdir md) as [m [-> _]].
  unfold AudioSegment.empty. rewrite app_nil_l.
  destruct (AudioSegment.len _ >? max_duration_ms); fields;
    rewrite ?glob_wav_mkdir; cbn [app]; rewrite <- ?app_assoc; cbn [app];
    rewrite <- ?app_assoc; reflexivity.
Qed.

Lemma reference_wav_trained (w : World) (branch : list LogRecord) (a : AudioSegment.t) :
  reference_wav (trained w branch a) = Some (Wav (keep_last a)).
Proof. reflexivity. Qed.

Lemma clips_on_disk_trained (w : World) (branch : list LogRecord) (a : AudioSegment.t) :
  clips_on_disk (trained w branch a) = clips_on_disk w.
Proof. unfold clips_on_disk, trained. fields. apply glob_wav_mkdir. Qed.

Lemma reference_wav_failed (w : World) (before : list LogRecord) (e : Exn) :
  reference_wav (failed w before e) = reference_wav w.
Proof.
  unfold reference_wav, failed. fields. destruct (model_dir w); reflexivity.
Qed.

Lemma clips_in_order_perm (w : World) :
  Permutation (clips_in_order w) (clips_on_disk w).
Proof. apply sorted_perm. Qed.

Lemma decodable_data (f : File) :
  decodable f = true -> data f = Wav (pcm f).
Proof.
  unfold decodable, pcm. destruct (data f); [reflexivity | discriminate].
Qed.

(** The outcome of [train] whenever every clip in a non-empty directory decodes. *)
Lemma train_all_decodable (w : World) :
  clips_on_disk w <> [] ->
  Forall (fun f => decodable f = true) (clips_on_disk w) ->
  exists branch,
    train w = (Return tt, trained w branch (flat_map pcm (clips_in_order w))).
Proof.
  intros Hne Hdec.
  destruct (clips_in_order w) as [|f [|g rest]] eqn:E.
  - apply sorted_nil_iff in E. contradiction.
  - assert (Hf : decodable f = true).
    { rewrite Forall_forall in Hdec. apply Hdec.
      apply (Permutation_in f (clips_in_order_perm w)). rewrite E. left. reflexivity. }
    exists [(INFO, Single_file_found (name f))].
    rewrite (train_single_clip w f (pcm f) E (decodable_data f Hf)).
    simpl. rewrite app_nil_r. reflexivity.
  - exists (map loop_log (f :: g :: rest)). apply train_many_clips, E.
Qed.


(* ================================================================= *)
(** ** Status reads, synthesis and the shapes of a run *)

Lemma default_count (w : World) :
  (if exists_ (audio_dir w)
   then Z.of_nat (List.length (glob_wav (audio_dir w)))
   else 0) = clip_count w.
Proof.
  unfold clip_count, clips_on_disk. destruct (audio_dir w); reflexivity.
Qed.

Lemma get_status_absent (w : World) :
  status_file w = None ->
  get_status w = (Return (default_record (clip_count w)), w).
Proof.
  intros H. unfold get_status, bind, get, ret. rewrite H, default_count.
  reflexivity.
Qed.

Lemma get_status_unparsable (w : World) (t : StatusText) :
  status_file w = Some t -> unparsable t = true ->
  get_status w
  = (Raise (Error (match t with
                   | NonUtf8 _ => UnicodeDecodeError
                   | _ => JSONDecodeError
                   end)), w).
Proof.
  intros H U. unfold get_status, bind, get. rewrite H.
  destruct t; [discriminate | reflexivity | reflexivity].
Qed.

Lemma get_status_parsable (w : World) (v : Json) :
  status_file w = Some (JsonText v) -> get_status w = (Return v, w).
Proof.
  intros H. unfold get_status, bind, get. rewrite H. reflexivity.
Qed.

Lemma api_get_status_raise (w : World) (e : Exn) :
  get_status w = (Raise e, w) ->
  Api.get_status w
  = (Raise (HTTPException 500 (StrOf e)),
     set_log (log w ++ [(ERROR, Failed_to_get_status e)]) w).
Proof.
  intros H. unfold Api.get_status, try_except, bind. rewrite H. reflexivity.
Qed.

Ltac run_tts :=
  cbv beta iota zeta delta
    [SimpleTTS.generate SimpleTTS._ensure_model_loaded bind logger modify get
     ret raise reference_wav snd
     audio_dir model_dir status_file output_wav clock ticks log writes
     tts_backend tts_model tts_calls set_audio_dir set_model_dir
     set_status_file set_output_wav set_ticks set_log set_writes
     set_tts_model set_tts_calls].

Lemma generate_records_call (text : Text) (w : World) :
  tts_calls (snd (SimpleTTS.generate text w)) = tts_calls w ++ [text].
Proof.
  destruct w as [ad md sf ow ck tk lg wr be tm tc]. run_tts.
  destruct tm; [|destruct (load_ok be)]; run_tts; try reflexivity;
    (destruct md as [[prompt|]|]; run_tts;
     [destruct (synth be text prompt)|..]; reflexivity).
Qed.

Lemma clips_in_order_single (w : World) (f : File) :
  clips_on_disk w = [f] -> clips_in_order w = [f].
Proof. unfold clips_in_order. intros ->. reflexivity. Qed.

Lemma clips_in_order_many (w : World) :
  (2 <= List.length (clips_on_disk w))%nat ->
  exists f g rest, clips_in_order w = f :: g :: rest.
Proof.
  intros H. pose proof (sorted_length _ st_mtime (clips_on_disk w)) as L.
  fold (clips_in_order w) in L.
  destruct (clips_in_order w) as [|f [|g rest]]; simpl in L; try lia.
  exists f, g, rest. reflexivity.
Qed.

Lemma loop_log_undecodable (f : File) :
  decodable f = false ->
  loop_log f
  = (WARNING, Failed_to_process (name f) (Error (CouldntDecodeError (name f)))).
Proof.
  unfold decodable, loop_log. destruct (data f); [discriminate | reflexivity].
Qed.

Lemma flat_map_pcm_undecodable (l : list File) :
  Forall (fun f => decodable f = false) l -> flat_map pcm l = [].
Proof.
  induction 1 as [|f l Hf _ IH]; [reflexivity|].
  simpl. rewrite IH, app_nil_r. unfold decodable in Hf. unfold pcm.
  destruct (data f); [discriminate | reflexivity].
Qed.

(** When every check passes, [synthesize] does reach the adapter. *)
Lemma synthesize_invokes_adapter (w : World) (text : Text) (r : FileData) :
  reference_wav w = Some r -> strip text <> [] ->
  Z.of_nat (List.length text) <= 500 ->
  tts_calls (snd (Api.synthesize text w)) = tts_calls w ++ [text].
Proof.
  intros R S L.
  pose proof (generate_records_call text
    (set_log (log w ++ [(INFO, Synthesizing_text (firstn 50 text))]) w)) as G.
  unfold Api.synthesize, try_except, bind, get, ret, raise.
  rewrite R. cbn [exists_ negb].
  destruct text as [|c text]; [contradiction S; reflexivity|].
  destruct (strip (c :: text)) as [|c' s'] eqn:E; [contradiction S; reflexivity|].
  change (List.length (c' :: s') =? 0)%nat with false. cbv iota.
  destruct (Z.of_nat (List.length (c :: text)) >? 500) eqn:Len; [lia|].
  unfold logger at 1, modify.
  destruct (SimpleTTS.generate (c :: text) _) as [[p|[e|code d]] w'];
    cbn [snd] in G; fields; exact G.
Qed.

(* ================================================================= *)
(** ** The properties of the specification *)

(** C1.  For every non-empty set of clips on disk (each of them a decodable
    clip), [train] succeeds and leaves a reference sample [ref] whose
    duration is the smaller of the clips' total duration and 20000 ms; [ref]
    is a suffix of the concatenation of the clips taken in ascending order
    of modification time, hence exactly its trailing 20000 ms when the
    concatenation is longer than that. *)
Theorem run_duration_and_tail (w : World) :
  clips_on_disk w <> [] ->
  Forall (fun f => decodable f = true) (clips_on_disk w) ->
  exists w' ref dropped,
    train w = (Return tt, w')
    /\ reference_wav w' = Some (Wav ref)
    /\ AudioSegment.len ref = Z.min (total_duration (clips_on_disk w)) 20000
    /\ flat_map pcm (clips_in_order w) = dropped ++ ref
    /\ Permutation (clips_in_order w) (clips_on_disk w)
    /\ ascending st_mtime (clips_in_order w).
Proof.
  intros Hne Hdec.
  destruct (train_all_decodable w Hne Hdec) as [branch Ht].
  destruct (keep_last_suffix (flat_map pcm (clips_in_order w))) as [dropped Hd].
  exists (trained w branch (flat_map pcm (clips_in_order w))),
         (keep_last (flat_map pcm (clips_in_order w))), dropped.
  repeat split.
  - exact Ht.
  - rewrite len_keep_last, len_flat_map_pcm.
    rewrite (total_duration_perm _ _ (clips_in_order_perm w)). reflexivity.
  - exact Hd.
  - apply clips_in_order_perm.
  - apply sorted_ascending.
Qed.

Lemma run_duration_and_tail_witness :
  clips_on_disk two_clips <> []
  /\ Forall (fun f => decodable f = true) (clips_on_disk two_clips)
  /\ exists w' ref dropped,
       train two_clips = (Return tt, w')
       /\ reference_wav w' = Some (Wav ref)
       /\ AudioSegment.len ref
          = Z.min (total_duration (clips_on_disk two_clips)) 20000
       /\ flat_map pcm (clips_in_order two_clips) = dropped ++ ref
       /\ Permutation (clips_in_order two_clips) (clips_on_disk two_clips)
       /\ ascending st_mtime (clips_in_order two_clips).
Proof.
  assert (H1 : clips_on_disk two_clips <> []) by (vm_compute; discriminate).
  assert (H2 : Forall (fun f => decodable f = true) (clips_on_disk two_clips))
    by (vm_compute; repeat constructor).
  split; [exact H1 | split; [exact H2 | apply (run_duration_and_tail two_clips H1 H2)]].
Defined.

(** C2.  With no clip on disk, [train] first writes the status "training",
    then fails with the error of [concatenate_audio] ("No audio files found
    to concatenate"), overwrites the status with "error" and an audio count
    of 0, and raises that error to its caller; the reference sample is left
    as it was. *)
Theorem run_without_clips (w : World) :
  clips_on_disk w = [] ->
  exists w',
    train w
    = (Raise (Error (ValueError "No audio files found to concatenate")), w')
    /\ writes w'
       = writes w
         ++ [WriteStatus (status_record "training" 0 (clock w (ticks w))
                            (exists_ (reference_wav w)));
             WriteStatus (status_record "error" 0 (clock w (S (ticks w)))
                            (exists_ (reference_wav w)))]
    /\ status_file w'
       = Some (JsonText (status_record "error" 0 (clock w (S (ticks w)))
                           (exists_ (reference_wav w))))
    /\ reference_wav w' = reference_wav w.
Proof.
  intros H.
  assert (Ho : clips_in_order w = []) by (apply sorted_nil_iff, H).
  eexists. split; [apply train_no_clips, Ho|].
  unfold failed, training_record, error_record, clip_count. fields.
  rewrite H. repeat split.
  apply (reference_wav_failed w []
           (Error (ValueError "No audio files found to concatenate"))).
Qed.

Lemma run_without_clips_witness :
  clips_on_disk fresh_world = []
  /\ exists w',
       train fresh_world
       = (Raise (Error (ValueError "No audio files found to concatenate")), w')
       /\ writes w'
          = writes fresh_world
            ++ [WriteStatus
                  (status_record "training" 0
                     (clock fresh_world (ticks fresh_world))
                     (exists_ (reference_wav fresh_world)));
                WriteStatus
                  (status_record "error" 0
                     (clock fresh_world (S (ticks fresh_world)))
                     (exists_ (reference_wav fresh_world)))]
       /\ status_file w'
          = Some (JsonText
                    (status_record "error" 0
                       (clock fresh_world (S (ticks fresh_world)))
                       (exists_ (reference_wav fresh_world))))
       /\ reference_wav w' = reference_wav fresh_world.
Proof.
  split; [reflexivity | apply (run_without_clips fresh_world); reflexivity].
Defined.

(** C3, as the code has it.  A stored status record that cannot be read or
    parsed is not treated as absent.  For text that is not JSON [get_status]
    raises [JSONDecodeError], for bytes that are not text it raises
    [UnicodeDecodeError]; either way nothing changes, and [GET /status] logs
    the error and answers with status code 500.  A record that parses is
    returned as it is stored.  The default record is synthesized only when
    there is no status file. *)
Theorem unparsable_status_read_fails (w : World) :
  match status_file w with
  | Some (NonJsonText _) =>
      get_status w = (Raise (Error JSONDecodeError), w)
      /\ Api.get_status w
         = (Raise (HTTPException 500 (StrOf (Error JSONDecodeError))),
            set_log (log w
                     ++ [(ERROR, Failed_to_get_status (Error JSONDecodeError))])
                    w)
  | Some (NonUtf8 _) =>
      get_status w = (Raise (Error UnicodeDecodeError), w)
      /\ Api.get_status w
         = (Raise (HTTPException 500 (StrOf (Error UnicodeDecodeError))),
            set_log (log w
                     ++ [(ERROR, Failed_to_get_status (Error UnicodeDecodeError))])
                    w)
  | Some (JsonText v) => get_status w = (Return v, w)
  | None => get_status w = (Return (default_record (clip_count w)), w)
  end.
Proof.
  destruct (status_file w) as [[v|s|raw]|] eqn:H.
  - apply get_status_parsable, H.
  - pose proof (get_status_unparsable w _ H eq_refl) as G.
    split; [exact G | apply api_get_status_raise, G].
  - pose proof (get_status_unparsable w _ H eq_refl) as G.
    split; [exact G | apply api_get_status_raise, G].
  - apply get_status_absent, H.
Qed.

(** C3, as stated, fails: with two clips on disk and a status file that
    holds only an opening brace, the status read raises instead of returning
    the default record, and the endpoint answers 500. *)
Lemma corrupt_status_is_not_treated_as_absent :
  status_file corrupt_status = Some (NonJsonText "{")
  /\ get_status corrupt_status = (Raise (Error JSONDecodeError), corrupt_status)
  /\ fst (get_status corrupt_status)
     <> Return (default_record (clip_count corrupt_status))
  /\ fst (Api.get_status corrupt_status)
     = Raise (HTTPException 500 (StrOf (Error JSONDecodeError))).
Proof.
  repeat split; try reflexivity. discriminate.
Qed.

(** C4, as the code has it.  With exactly one clip on disk, and that clip
    decodable, [train] succeeds; the reference sample is the clip's PCM data
    unchanged when the clip lasts at most 20000 ms, and the trailing
    20000 ms of it when the clip is longer. *)
Theorem single_clip_reference (w : World) (f : File) (a : AudioSegment.t) :
  clips_on_disk w = [f] -> data f = Wav a ->
  exists w' ref,
    train w = (Return tt, w')
    /\ reference_wav w' = Some (Wav ref)
    /\ (AudioSegment.len a <= 20000 -> ref = a)
    /\ (AudioSegment.len a > 20000 ->
        AudioSegment.len ref = 20000 /\ exists dropped, a = dropped ++ ref).
Proof.
  intros H E.
  exists (trained w [(INFO, Single_file_found (name f))] a), (keep_last a).
  split; [apply train_single_clip; [apply clips_in_order_single, H | exact E]|].
  split; [reflexivity|]. split.
  - apply keep_last_short.
  - intros L. split; [|apply keep_last_suffix].
    rewrite len_keep_last. unfold max_duration_ms. lia.
Qed.

Lemma single_clip_reference_witness :
  clips_on_disk one_clip = [clip_a]
  /\ data clip_a = Wav [1; 2; 3]
  /\ exists w' ref,
       train one_clip = (Return tt, w')
       /\ reference_wav w' = Some (Wav ref)
       /\ (AudioSegment.len [1; 2; 3] <= 20000 -> ref = [1; 2; 3])
       /\ (AudioSegment.len [1; 2; 3] > 20000 ->
           AudioSegment.len ref = 20000
           /\ exists dropped, [1; 2; 3] = dropped ++ ref).
Proof.
  split; [reflexivity | split; [reflexivity|]].
  apply (single_clip_reference one_clip clip_a [1; 2; 3]); reflexivity.
Defined.

Lemma len_long_audio : AudioSegment.len long_audio = 20001.
Proof.
  unfold AudioSegment.len, long_audio. rewrite repeat_length.
  apply Z2Nat.id. lia.
Qed.

(** C4, as stated, fails: a run over a single clip of 20001 ms leaves a
    reference sample of 20000 ms, which is not the clip's PCM data. *)
Lemma single_long_clip_is_trimmed :
  clips_on_disk long_clip_world = [long_clip]
  /\ exists w' ref,
       train long_clip_world = (Return tt, w')
       /\ reference_wav w' = Some (Wav ref)
       /\ AudioSegment.len ref = 20000
       /\ ref <> pcm long_clip.
Proof.
  assert (C : clips_on_disk long_clip_world = [long_clip]) by reflexivity.
  split; [exact C|].
  exists (trained long_clip_world
            [(INFO, Single_file_found (name long_clip))] long_audio),
         (keep_last long_audio).
  assert (L : AudioSegment.len (keep_last long_audio) = 20000).
  { rewrite len_keep_last, len_long_audio. reflexivity. }
  split; [apply train_single_clip;
          [apply clips_in_order_single, C | reflexivity]|].
  split; [reflexivity|]. split; [exact L|].
  intros E. change (pcm long_clip) with long_audio in E.
  rewrite E, len_long_audio in L. clear E. discriminate L.
Qed.

(** C5.  In a run over two or more files, a file that fails to decode is
    left out of the concatenation and a warning naming it is logged; the
    run goes on with the remaining files and succeeds: the reference sample
    is made of the clips that decode, in order, and the status becomes
    "ready". *)
Theorem undecodable_clips_are_skipped (w : World) :
  (2 <= List.length (clips_on_disk w))%nat ->
  exists w',
    train w = (Return tt, w')
    /\ reference_wav w'
       = Some (Wav (keep_last
                      (flat_map pcm (filter decodable (clips_in_order w)))))
    /\ (forall f, In f (clips_on_disk w) -> decodable f = false ->
          In (WARNING,
              Failed_to_process (name f) (Error (CouldntDecodeError (name f))))
             (log w'))
    /\ status_file w' = Some (JsonText (ready_record w)).
Proof.
  intros H. destruct (clips_in_order_many w H) as (f & g & rest & E).
  eexists. split; [apply train_many_clips, E|]. rewrite <- E.
  split; [rewrite flat_map_pcm_decodable; reflexivity|].
  split; [|reflexivity].
  intros c Hin Hc. unfold trained, concatenation_log. fields.
  apply in_or_app. right. apply in_or_app. right.
  apply in_or_app. left. right. apply in_or_app. left.
  rewrite <- (loop_log_undecodable c Hc). apply in_map.
  apply (Permutation_in c (Permutation_sym (clips_in_order_perm w))), Hin.
Qed.

Lemma undecodable_clips_are_skipped_witness :
  (2 <= List.length (clips_on_disk mixed_clips))%nat
  /\ exists w',
       train mixed_clips = (Return tt, w')
       /\ reference_wav w'
          = Some (Wav (keep_last
                         (flat_map pcm
                            (filter decodable (clips_in_order mixed_clips)))))
       /\ (forall f, In f (clips_on_disk mixed_clips) -> decodable f = false ->
             In (WARNING,
                 Failed_to_process (name f)
                   (Error (CouldntDecodeError (name f))))
                (log w'))
       /\ status_file w' = Some (JsonText (ready_record mixed_clips)).
Proof.
  assert (H : (2 <= List.length (clips_on_disk mixed_clips))%nat)
    by (vm_compute; repeat constructor).
  split; [exact H | apply (undecodable_clips_are_skipped mixed_clips H)].
Defined.

(** C6.  When a run has succeeded, a second run started right after it,
    with no clip added or removed in between, succeeds too and writes a
    reference sample identical to the one the first run left.  Both runs
    take the same clips in the same order: that order holds exactly the
    clips listed, is ascending in modification time (the creation time of a
    clip, which is never rewritten) and, as tie-break, keeps the listing
    order among clips of equal time; the sample is the trailing part
    ([keep_last]) of the clips' audio concatenated in that order. *)
Theorem rerun_same_reference (w w1 : World) :
  train w = (Return tt, w1) ->
  exists w2 ref s s',
    train w1 = (Return tt, w2)
    /\ clips_on_disk w1 = clips_on_disk w
    /\ clips_in_order w1 = clips_in_order w
    /\ Permutation (clips_in_order w) (clips_on_disk w)
    /\ ascending st_mtime (clips_in_order w)
    /\ (forall t,
          filter (fun f => st_mtime f =? t) (clips_in_order w)
          = filter (fun f => st_mtime f =? t) (clips_on_disk w))
    /\ ref = keep_last (flat_map pcm (clips_in_order w))
    /\ reference_wav w1 = Some (Wav ref)
    /\ reference_wav w2 = Some (Wav ref)
    /\ writes w2 = writes w1 ++ [WriteStatus s; WriteReference ref; WriteStatus s'].
Proof.
  intros T.
  assert (D' : forall branch a,
             w1 = trained w branch a -> clips_on_disk w1 = clips_on_disk w).
  { intros branch a ->. apply clips_on_disk_trained. }
  assert (K : forall branch a,
             w1 = trained w branch a -> clips_in_order w1 = clips_in_order w).
  { intros branch a ->. unfold clips_in_order.
    rewrite clips_on_disk_trained. reflexivity. }
  pose proof (clips_in_order_perm w) as P.
  assert (A : ascending st_mtime (clips_in_order w)) by apply sorted_ascending.
  assert (S : forall t,
             filter (fun f => st_mtime f =? t) (clips_in_order w)
             = filter (fun f => st_mtime f =? t) (clips_on_disk w))
    by (intros t; apply sorted_stable).
  destruct (clips_in_order w) as [|f [|g rest]] eqn:E.
  - rewrite (train_no_clips w E) in T. discriminate.
  - destruct (data f) as [a|raw] eqn:D.
    + rewrite (train_single_clip w f a E D) in T. injection T as <-.
      specialize (K _ _ eq_refl). specialize (D' _ _ eq_refl).
      assert (F : flat_map pcm [f] = a)
        by (simpl; unfold pcm; rewrite D; apply app_nil_r).
      eexists. exists (keep_last a). do 2 eexists.
      split; [apply (train_single_clip _ f a); [exact K | exact D]|].
      rewrite F. repeat split; assumption.
    + rewrite (train_single_undecodable w f raw E D) in T. discriminate.
  - rewrite (train_many_clips w f g rest E) in T. injection T as <-.
    specialize (K _ _ eq_refl). specialize (D' _ _ eq_refl).
    eexists. exists (keep_last (flat_map pcm (f :: g :: rest))). do 2 eexists.
    split; [apply train_many_clips; exact K|].
    repeat split; assumption.
Qed.

Lemma rerun_same_reference_witness :
  train two_clips = (Return tt, snd (train two_clips))
  /\ exists w2 ref s s',
       train (snd (train two_clips)) = (Return tt, w2)
       /\ clips_on_disk (snd (train two_clips)) = clips_on_disk two_clips
       /\ clips_in_order (snd (train two_clips)) = clips_in_order two_clips
       /\ Permutation (clips_in_order two_clips) (clips_on_disk two_clips)
       /\ ascending st_mtime (clips_in_order two_clips)
       /\ (forall t,
             filter (fun f => st_mtime f =? t) (clips_in_order two_clips)
             = filter (fun f => st_mtime f =? t) (clips_on_disk two_clips))
       /\ ref = keep_last (flat_map pcm (clips_in_order two_clips))
       /\ reference_wav (snd (train two_clips)) = Some (Wav ref)
       /\ reference_wav w2 = Some (Wav ref)
       /\ writes w2
          = writes (snd (train two_clips))
            ++ [WriteStatus s; WriteReference ref; WriteStatus s'].
Proof.
  assert (H : train two_clips = (Return tt, snd (train two_clips)))
    by (vm_compute; reflexivity).
  split; [exact H | apply (rerun_same_reference two_clips _ H)].
Defined.

(** C7.  A synthesis request is refused with an [HTTPException] of status
    400 whenever there is no reference sample yet, the text is empty once
    trimmed, or the text has more than 500 characters; the world is left
    exactly as it was, so the synthesis adapter has not been called. *)
Theorem synthesize_precondition_failed (w : World) (text : Text) :
  reference_wav w = None \/ strip text = []
  \/ 500 < Z.of_nat (List.length text) ->
  exists detail,
    Api.synthesize text w = (Raise (HTTPException 400 (Message detail)), w)
    /\ tts_calls (snd (Api.synthesize text w)) = tts_calls w.
Proof.
  intros H.
  enough (exists detail,
             Api.synthesize text w
             = (Raise (HTTPException 400 (Message detail)), w)) as [d Hd]
    by (exists d; rewrite Hd; split; reflexivity).
  unfold Api.synthesize, try_except, bind, get, ret, raise.
  destruct (reference_wav w) as [r|] eqn:R; cbn [exists_ negb];
    [|eexists; reflexivity].
  destruct text as [|c text]; [eexists; reflexivity|].
  destruct (strip (c :: text)) as [|c' s'] eqn:S; [eexists; reflexivity|].
  change (List.length (c' :: s') =? 0)%nat with false. cbv iota.
  destruct H as [H|[H|H]]; try discriminate.
  destruct (Z.of_nat (List.length (c :: text)) >? 500) eqn:L;
    [eexists; reflexivity|].
  lia.
Qed.

Lemma synthesize_precondition_failed_witness :
  (reference_wav fresh_world = None \/ strip [72; 105]%N = []
   \/ 500 < Z.of_nat (List.length [72; 105]%N))
  /\ exists detail,
       Api.synthesize [72; 105]%N fresh_world
       = (Raise (HTTPException 400 (Message detail)), fresh_world)
       /\ tts_calls (snd (Api.synthesize [72; 105]%N fresh_world))
          = tts_calls fresh_world.
Proof.
  assert (H : reference_wav fresh_world = None \/ strip [72; 105]%N = []
              \/ 500 < Z.of_nat (List.length [72; 105]%N))
    by (left; reflexivity).
  split; [exact H | apply (synthesize_precondition_failed fresh_world _ H)].
Defined.

(** C8.  A status read made while no status record is stored, with N clips
    on disk, returns the default record: status "idle", audio count N, no
    time of last training and no model path; [GET /status] answers with the
    same status, count and absent time. *)
Theorem status_read_before_any_write (w : World) :
  status_file w = None ->
  get_status w = (Return (default_record (clip_count w)), w)
  /\ Api.get_status w
     = (Return (Api.mkStatusResponse "idle" (clip_count w) None), w).
Proof.
  intros H. split; [apply get_status_absent, H|].
  unfold Api.get_status, try_except, bind.
  rewrite (get_status_absent w H). reflexivity.
Qed.

Lemma status_read_before_any_write_witness :
  status_file two_clips = None
  /\ clip_count two_clips = 2
  /\ get_status two_clips
     = (Return (default_record (clip_count two_clips)), two_clips)
  /\ Api.get_status two_clips
     = (Return (Api.mkStatusResponse "idle" (clip_count two_clips) None),
        two_clips).
Proof.
  split; [reflexivity | split; [reflexivity|]].
  apply (status_read_before_any_write two_clips). reflexivity.
Defined.

(** C10.  A run over two or more files of which none decodes still
    succeeds: it writes an empty reference sample, of duration 0, and then
    the status "ready". *)
Theorem all_clips_undecodable (w : World) :
  (2 <= List.length (clips_on_disk w))%nat ->
  Forall (fun f => decodable f = false) (clips_on_disk w) ->
  exists w',
    train w = (Return tt, w')
    /\ reference_wav w' = Some (Wav AudioSegment.empty)
    /\ AudioSegment.len AudioSegment.empty = 0
    /\ status_file w'
       = Some (JsonText (status_record "ready" (clip_count w)
                           (clock w (S (ticks w))) true))
    /\ writes w'
       = writes w ++ [WriteStatus (training_record w);
                      WriteReference AudioSegment.empty;
                      WriteStatus (ready_record w)].
Proof.
  intros H U. destruct (clips_in_order_many w H) as (f & g & rest & E).
  assert (C : flat_map pcm (f :: g :: rest) = []).
  { rewrite <- E. apply flat_map_pcm_undecodable.
    eapply Permutation_Forall; [|exact U].
    apply Permutation_sym, clips_in_order_perm. }
  eexists. split; [apply train_many_clips, E|].
  unfold trained. fields. rewrite C. repeat split.
Qed.

Lemma all_clips_undecodable_witness :
  (2 <= List.length (clips_on_disk broken_clips))%nat
  /\ Forall (fun f => decodable f = false) (clips_on_disk broken_clips)
  /\ exists w',
       train broken_clips = (Return tt, w')
       /\ reference_wav w' = Some (Wav AudioSegment.empty)
       /\ AudioSegment.len AudioSegment.empty = 0
       /\ status_file w'
          = Some (JsonText (status_record "ready" (clip_count broken_clips)
                              (clock broken_clips (S (ticks broken_clips)))
                              true))
       /\ writes w'
          = writes broken_clips
            ++ [WriteStatus (training_record broken_clips);
                WriteReference AudioSegment.empty;
                WriteStatus (ready_record broken_clips)].
Proof.
  assert (H : (2 <= List.length (clips_on_disk broken_clips))%nat)
    by (vm_compute; repeat constructor).
  assert (U : Forall (fun f => decodable f = false) (clips_on_disk broken_clips))
    by (vm_compute; repeat constructor).
  split; [exact H | split; [exact U|]].
  apply (all_clips_undecodable broken_clips H U).
Defined.

(* ================================================================= *)
(** ** Further properties of the trainer *)

Lemma train_shape (w : World) :
  (exists branch a, train w = (Return tt, trained w branch a))
  \/ (exists before e, train w = (Raise e, failed w before e)).
Proof.
  destruct (clips_in_order w) as [|f [|g rest]] eqn:E.
  - right. do 2 eexists. apply train_no_clips, E.
  - destruct (data f) as [a|raw] eqn:D.
    + left. do 2 eexists. apply (train_single_clip w f a E D).
    + right. do 2 eexists. apply (train_single_undecodable w f raw E D).
  - left. do 2 eexists. apply train_many_clips, E.
Qed.

Lemma clips_on_disk_failed (w : World) (before : list LogRecord) (e : Exn) :
  clips_on_disk (failed w before e) = clips_on_disk w.
Proof. unfold clips_on_disk, failed. fields. apply glob_wav_mkdir. Qed.

Lemma clips_on_disk_single (w : World) (f : File) :
  clips_in_order w = [f] -> clips_on_disk w = [f].
Proof.
  intros E. pose proof (clips_in_order_perm w) as P. rewrite E in P.
  apply Permutation_length_1_inv in P. exact P.
Qed.

(** X1.  [train] returns normally only if there are two or more clips on
    disk, or a single clip that decodes: with no clip it raises the error
    "No audio files found to concatenate", and with a single clip that does
    not decode it raises that clip's decoding error, the single-file branch
    having no handler of its own. *)
Theorem train_returns_only_with_usable_clips (w : World) :
  (fst (train w) = Return tt ->
   (2 <= List.length (clips_on_disk w))%nat
   \/ exists f, clips_on_disk w = [f] /\ decodable f = true)
  /\ (clips_on_disk w = [] ->
      fst (train w)
      = Raise (Error (ValueError "No audio files found to concatenate")))
  /\ (forall f, clips_on_disk w = [f] -> decodable f = false ->
      fst (train w) = Raise (Error (CouldntDecodeError (name f)))).
Proof.
  pose proof (sorted_length _ st_mtime (clips_on_disk w)) as L.
  fold (clips_in_order w) in L.
  destruct (clips_in_order w) as [|f [|g rest]] eqn:E.
  - rewrite (train_no_clips w E). simpl in L.
    split; [discriminate|]. split; [reflexivity|].
    intros f' H. rewrite H in L. discriminate.
  - pose proof (clips_on_disk_single w f E) as C. rewrite C.
    destruct (data f) as [a|raw] eqn:D.
    + rewrite (train_single_clip w f a E D).
      split; [|split; [discriminate|]].
      * intros _. right. exists f. split; [reflexivity|].
        unfold decodable. rewrite D. reflexivity.
      * intros f' H Hd. injection H as <-. unfold decodable in Hd.
        rewrite D in Hd. discriminate.
    + rewrite (train_single_undecodable w f raw E D).
      split; [discriminate|]. split; [discriminate|].
      intros f' H _. injection H as <-. reflexivity.
  - rewrite (train_many_clips w f g rest E). simpl in L.
    split; [intros _; left; lia|]. split.
    + intros H. rewrite H in L. discriminate.
    + intros f' H. rewrite H in L. discriminate.
Qed.

(** X2.  Whatever its outcome, [train] leaves the clips on disk as they
    were. *)
Theorem train_keeps_the_clips (w : World) :
  clips_on_disk (snd (train w)) = clips_on_disk w.
Proof.
  destruct (train_shape w) as [(branch & a & ->)|(before & e & ->)].
  - apply clips_on_disk_trained.
  - apply clips_on_disk_failed.
Qed.

(** X3.  When [train] raises, the reference sample is the one from before
    the run, the stored status is the "error" record, the failure is logged,
    and the run has made exactly two writes: the "training" record, then the
    "error" record, and no write of the reference. *)
Theorem failed_run_keeps_reference (w w' : World) (e : Exn) :
  train w = (Raise e, w') ->
  reference_wav w' = reference_wav w
  /\ status_file w' = Some (JsonText (error_record w))
  /\ In (ERROR, Training_failed e) (log w')
  /\ writes w'
     = writes w ++ [WriteStatus (training_record w);
                    WriteStatus (error_record w)].
Proof.
  intros T.
  destruct (train_shape w) as [(branch & a & H)|(before & e' & H)];
    rewrite H in T; [discriminate|]. injection T as <- <-.
  split; [apply reference_wav_failed|]. split; [reflexivity|]. split.
  - unfold failed. fields. do 3 (apply in_or_app; right). left. reflexivity.
  - reflexivity.
Qed.

(** X4.  After [train] the stored status carries the count of clips and is
    never left at "training": it is "ready", with the model path set, when
    the run returned, and "error" when it raised. *)
Theorem run_ends_ready_or_error (w : World) :
  exists status last_trained model,
    status_file (snd (train w))
    = Some (JsonText (status_record status (clip_count w) last_trained model))
    /\ (fst (train w) = Return tt -> status = "ready" /\ model = true)
    /\ (fst (train w) <> Return tt -> status = "error").
Proof.
  destruct (train_shape w) as [(branch & a & ->)|(before & e & ->)].
  - exists "ready", (clock w (S (ticks w))), true.
    split; [reflexivity|]. split; [intros _; split; reflexivity|].
    intros H. contradiction H. reflexivity.
  - exists "error", (clock w (S (ticks w))), (exists_ (reference_wav w)).
    split; [reflexivity|]. split; [discriminate | reflexivity].
Qed.

(** X5.  A run that returns leaves a reference sample of at most
    20000 ms. *)
Theorem reference_within_ceiling (w w' : World) :
  train w = (Return tt, w') ->
  exists ref,
    reference_wav w' = Some (Wav ref)
    /\ 0 <= AudioSegment.len ref <= 20000.
Proof.
  intros T.
  destruct (train_shape w) as [(branch & a & H)|(before & e & H)];
    rewrite H in T; [|discriminate]. injection T as <-.
  exists (keep_last a). split; [reflexivity|].
  rewrite len_keep_last. pose proof (len_nonneg a).
  unfold max_duration_ms. lia.
Qed.

Lemma train_success_reference (w w' : World) :
  train w = (Return tt, w') ->
  reference_wav w'
  = Some (Wav (keep_last (flat_map pcm (clips_in_order w)))).
Proof.
  intros T. destruct (clips_in_order w) as [|f [|g rest]] eqn:E.
  - rewrite (train_no_clips w E) in T. discriminate.
  - destruct (data f) as [a|raw] eqn:D.
    + rewrite (train_single_clip w f a E D) in T. injection T as <-.
      simpl. unfold pcm. rewrite D, app_nil_r. reflexivity.
    + rewrite (train_single_undecodable w f raw E D) in T. discriminate.
  - rewrite (train_many_clips w f g rest E) in T. injection T as <-.
    reflexivity.
Qed.

Lemma keep_last_app (a b : AudioSegment.t) :
  AudioSegment.len b >= max_duration_ms -> keep_last (a ++ b) = keep_last b.
Proof.
  intros H. unfold max_duration_ms in H.
  assert (La : AudioSegment.len (a ++ b) = AudioSegment.len a + AudioSegment.len b).
  { unfold AudioSegment.len. rewrite length_app. lia. }
  pose proof (len_nonneg a) as Na.
  destruct a as [|x a]; [reflexivity|].
  assert (Lx : AudioSegment.len (x :: a) > 0).
  { unfold AudioSegment.len. simpl List.length. lia. }
  rewrite keep_last_long by (unfold max_duration_ms; lia).
  destruct (Z_gt_le_dec (AudioSegment.len b) max_duration_ms) as [G|G].
  - rewrite (keep_last_long b G). rewrite La. unfold max_duration_ms in *.
    replace (Z.to_nat (AudioSegment.len (x :: a) + AudioSegment.len b - 20000))
      with (List.length (x :: a) + Z.to_nat (AudioSegment.len b - 20000))%nat
      by (unfold AudioSegment.len in *; lia).
    rewrite skipn_app.
    rewrite skipn_all2 by lia.
    replace (List.length (x :: a) + Z.to_nat (AudioSegment.len b - 20000)
             - List.length (x :: a))%nat
      with (Z.to_nat (AudioSegment.len b - 20000)) by lia.
    reflexivity.
  - rewrite (keep_last_short b G). rewrite La. unfold max_duration_ms in *.
    replace (Z.to_nat (AudioSegment.len (x :: a) + AudioSegment.len b - 20000))
      with (List.length (x :: a)) by (unfold AudioSegment.len in *; lia).
    rewrite skipn_app, skipn_all, Nat.sub_diag. reflexivity.
Qed.

(** X6.  If the newest clips together last 20000 ms or more, the clips
    before them leave no trace in the reference sample: it is [keep_last] of
    the newest clips alone, and all of their audio when they last exactly
    20000 ms. *)
Theorem older_clips_fall_out (w w' : World) (older newer : list File) :
  train w = (Return tt, w') ->
  clips_in_order w = older ++ newer ->
  total_duration newer >= 20000 ->
  reference_wav w' = Some (Wav (keep_last (flat_map pcm newer)))
  /\ (total_duration newer = 20000 ->
      reference_wav w' = Some (Wav (flat_map pcm newer))).
Proof.
  intros T E H. rewrite (train_success_reference w w' T), E, flat_map_app.
  rewrite keep_last_app by (rewrite len_flat_map_pcm; exact H).
  split; [reflexivity|]. intros H'.
  rewrite keep_last_short; [reflexivity|].
  rewrite len_flat_map_pcm. unfold max_duration_ms. lia.
Qed.

Lemma update_status_run (status : string) (n : Z) (w : World) :
  update_status status n w
  = (Return tt,
     mkWorld (audio_dir w) (model_dir w)
       (Some (JsonText (status_record status n (clock w (ticks w))
                          (exists_ (reference_wav w)))))
       (output_wav w) (clock w) (S (ticks w))
       (log w ++ [(INFO, Status_updated
                           (status_record status n (clock w (ticks w))
                              (exists_ (reference_wav w))))])
       (writes w ++ [WriteStatus (status_record status n (clock w (ticks w))
                                    (exists_ (reference_wav w)))])
       (tts_backend w) (tts_model w) (tts_calls w)).
Proof. destruct w. reflexivity. Qed.

(** X7.  What [update_status] writes is what a status read returns right
    after: the same status and count, the clock reading taken by the write
    as time of last training; the write reads the clock once. *)
Theorem status_write_then_read (status : string) (n : Z) (w : World) :
  let w' := snd (update_status status n w) in
  fst (get_status w')
  = Return (status_record status n (clock w (ticks w))
              (exists_ (reference_wav w)))
  /\ fst (Api.get_status w')
     = Return (Api.mkStatusResponse status n (Some (clock w (ticks w))))
  /\ ticks w' = S (ticks w).
Proof.
  rewrite update_status_run. cbn [snd]. repeat split.
Qed.

Lemma trained_status_response (w : World) (branch : list LogRecord)
      (a : AudioSegment.t) :
  Api.get_status (trained w branch a)
  = (Return (Api.mkStatusResponse "ready" (clip_count w)
               (Some (clock w (S (ticks w))))), trained w branch a).
Proof. reflexivity. Qed.

(** X8.  After a run that returned, [GET /status] answers "ready" with the
    number of clips and the second clock reading of the run. *)
Theorem status_after_successful_run (w w' : World) :
  train w = (Return tt, w') ->
  Api.get_status w'
  = (Return (Api.mkStatusResponse "ready" (clip_count w)
               (Some (clock w (S (ticks w))))), w')
  /\ fst (get_status w')
     = Return (status_record "ready" (clip_count w) (clock w (S (ticks w))) true).
Proof.
  intros T.
  destruct (train_shape w) as [(branch & a & H)|(before & e & H)];
    rewrite H in T; [|discriminate]. injection T as <-.
  split; reflexivity.
Qed.


Lemma api_get_status_stored (w : World) (v : Json) :
  status_file w = Some (JsonText v) ->
  Api.get_status w
  = match response_of v with
    | Return r => (Return r, w)
    | Raise e =>
        (Raise (HTTPException 500 (StrOf e)),
         set_log (log w ++ [(ERROR, Failed_to_get_status e)]) w)
    end.
Proof.
  intros H. unfold Api.get_status, try_except, bind.
  rewrite (get_status_parsable w v H).
  unfold response_of, getitem, dict_get, Api.StatusResponse_init, ret, raise,
    logger, modify.
  destruct v as [| | | |l|items]; try reflexivity.
  destruct (lookup "status" items) as [s|]; [|reflexivity].
  destruct (lookup "audio_count" items) as [n|]; [|reflexivity].
  destruct (lookup "last_trained" items) as [t|];
    destruct s; try reflexivity; destruct n; try reflexivity;
    try (destruct t; reflexivity).
Qed.

(** X9.  Once a status file exists, the answer of a status read does not
    depend on the audio directory: the stored count is not checked against
    the clips on disk. *)
Theorem stored_status_ignores_the_clips (w : World) (t : StatusText)
        (dir : option (list File)) :
  status_file w = Some t ->
  fst (get_status (set_audio_dir dir w)) = fst (get_status w)
  /\ fst (Api.get_status (set_audio_dir dir w)) = fst (Api.get_status w).
Proof.
  intros H.
  assert (H' : status_file (set_audio_dir dir w) = Some t) by exact H.
  destruct t as [v|s|raw].
  - rewrite (get_status_parsable _ v H'), (get_status_parsable _ v H).
    rewrite (api_get_status_stored _ v H'), (api_get_status_stored _ v H).
    split; [reflexivity|]. destruct (response_of v); reflexivity.
  - rewrite (get_status_unparsable _ _ H' eq_refl),
            (get_status_unparsable _ _ H eq_refl).
    rewrite (api_get_status_raise _ _ (get_status_unparsable _ _ H' eq_refl)),
            (api_get_status_raise _ _ (get_status_unparsable _ _ H eq_refl)).
    split; reflexivity.
  - rewrite (get_status_unparsable _ _ H' eq_refl),
            (get_status_unparsable _ _ H eq_refl).
    rewrite (api_get_status_raise _ _ (get_status_unparsable _ _ H' eq_refl)),
            (api_get_status_raise _ _ (get_status_unparsable _ _ H eq_refl)).
    split; reflexivity.
Qed.

(** X10.  A stored JSON object without the key "status" or "audio_count"
    makes [GET /status] answer 500 with the [KeyError] of the key the
    handler reads first among the missing ones: "status" whenever it is
    missing, "audio_count" only when "status" is there. *)
Theorem status_record_missing_key (w : World) (items : list (string * Json)) :
  status_file w = Some (JsonText (JDict items)) ->
  lookup "status" items = None \/ lookup "audio_count" items = None ->
  let key := match lookup "status" items with
             | None => "status"
             | Some _ => "audio_count"
             end in
  lookup key items = None
  /\ Api.get_status w
     = (Raise (HTTPException 500 (StrOf (Error (KeyError key)))),
        set_log (log w ++ [(ERROR, Failed_to_get_status (Error (KeyError key)))]) w).
Proof.
  intros H M. cbv zeta.
  rewrite (api_get_status_stored w _ H). unfold response_of.
  destruct (lookup "status" items) as [s|] eqn:S.
  - destruct M as [M|M]; [discriminate|]. rewrite M. split; reflexivity.
  - split; [exact S | reflexivity].
Qed.

(** X11.  A stored JSON object with a string "status" and an integer
    "audio_count" but no "last_trained" is answered normally, with no time
    of last training. *)
Theorem status_record_without_last_trained (w : World)
        (items : list (string * Json)) (s : string) (n : Z) :
  status_file w = Some (JsonText (JDict items)) ->
  lookup "status" items = Some (JStr s) ->
  lookup "audio_count" items = Some (JInt n) ->
  lookup "last_trained" items = None ->
  Api.get_status w = (Return (Api.mkStatusResponse s n None), w).
Proof.
  intros H S N T. rewrite (api_get_status_stored w _ H). unfold response_of.
  rewrite S, N, T. reflexivity.
Qed.

(** X12.  A stored JSON value that is not an object makes [GET /status]
    answer 500 with a [TypeError]. *)
Theorem status_record_not_an_object (w : World) (v : Json) :
  status_file w = Some (JsonText v) ->
  (forall items, v <> JDict items) ->
  Api.get_status w
  = (Raise (HTTPException 500 (StrOf (Error TypeError))),
     set_log (log w ++ [(ERROR, Failed_to_get_status (Error TypeError))]) w).
Proof.
  intros H N. rewrite (api_get_status_stored w _ H).
  destruct v; try reflexivity. contradiction (N items). reflexivity.
Qed.

Ltac run_api :=
  cbv beta iota zeta delta
    [Api.synthesize SimpleTTS.generate SimpleTTS._ensure_model_loaded
     try_except bind logger modify get ret raise reference_wav snd fst
     exists_ negb
     audio_dir model_dir status_file output_wav clock ticks log writes
     tts_backend tts_model tts_calls set_audio_dir set_model_dir
     set_status_file set_output_wav set_ticks set_log set_writes
     set_tts_model set_tts_calls].

Lemma lstrip_all_space (s : Text) :
  forallb isspace s = true -> lstrip s = [].
Proof.
  induction s as [|c s IH]; [reflexivity|]. simpl.
  destruct (isspace c); [exact IH | discriminate].
Qed.

Lemma lstrip_nil_iff (s : Text) :
  lstrip s = [] <-> forallb isspace s = true.
Proof.
  split; [|apply lstrip_all_space].
  induction s as [|c s IH]; [reflexivity|]. simpl.
  destruct (isspace c); [exact IH | discriminate].
Qed.

Lemma lstrip_head (s r : Text) (c : N) :
  lstrip s = c :: r -> isspace c = false.
Proof.
  induction s as [|d s IH]; [discriminate|]. simpl.
  destruct (isspace d) eqn:E; [exact IH|].
  intros H. injection H as <- _. exact E.
Qed.

Lemma strip_nil_iff (s : Text) : strip s = [] <-> forallb isspace s = true.
Proof.
  unfold strip. split.
  - intros H. apply lstrip_nil_iff.
    assert (R : lstrip (rev (lstrip s)) = []).
    { apply (f_equal (@rev N)) in H. rewrite rev_involutive in H. exact H. }
    apply lstrip_nil_iff in R.
    destruct (lstrip s) as [|c r] eqn:E; [reflexivity|].
    pose proof (lstrip_head s r c E) as Hc.
    rewrite forallb_forall in R. rewrite (R c) in Hc; [discriminate|].
    apply in_rev. rewrite rev_involutive. left. reflexivity.
  - intros H. rewrite (lstrip_all_space s H). reflexivity.
Qed.

(** X13.  With a reference sample in place, [POST /synthesize] answers 400
    "Text cannot be empty" exactly for the texts made of whitespace only
    (the empty text among them), and then changes nothing. *)
Theorem blank_text_is_refused (w : World) (text : Text) (r : FileData) :
  reference_wav w = Some r ->
  (forallb isspace text = true
   <-> Api.synthesize text w
       = (Raise (HTTPException 400 (Message "Text cannot be empty")), w)).
Proof.
  intros R. unfold Api.synthesize, try_except, bind, get, ret, raise.
  rewrite R. cbn [exists_ negb]. rewrite <- strip_nil_iff.
  destruct text as [|c text]; [split; reflexivity|].
  destruct (strip (c :: text)) as [|c' s']; [split; reflexivity|].
  change (List.length (c' :: s') =? 0)%nat with false. cbv iota.
  split; [discriminate|].
  destruct (Z.of_nat (List.length (c :: text)) >? 500); [discriminate|].
  unfold logger at 1, modify.
  destruct (SimpleTTS.generate (c :: text) _) as [[p|[e|code d]] w'] eqn:G.
  - discriminate.
  - unfold logger, modify. discriminate.
  - intros H. exfalso.
    (* generate never raises an HTTPException *)
    revert G. destruct w as [ad md sf ow ck tk lg wr be tm tc]. run_tts.
    destruct tm; [|destruct (load_ok be)]; run_tts;
      try (destruct md as [[prompt|]|]; run_tts;
           [destruct (synth be (c :: text) prompt)|..]); discriminate.
Qed.

Ltac generate_cases w text :=
  destruct w as [ad md sf ow ck tk lg wr be tm tc]; run_tts;
  destruct tm; [|destruct (load_ok be) eqn:?]; run_tts;
  try (destruct md as [[prompt|]|]; run_tts;
       [destruct (synth be text prompt) eqn:?|..]).

Lemma generate_result (text : Text) (w : World) :
  match fst (SimpleTTS.generate text w) with
  | Return p =>
      p = SimpleTTS.output_path
      /\ (tts_model w = true \/ load_ok (tts_backend w) = true)
      /\ exists r wav,
           reference_wav w = Some r
           /\ synth (tts_backend w) text r = Some wav
           /\ output_wav (snd (SimpleTTS.generate text w)) = Some wav
           /\ tts_model (snd (SimpleTTS.generate text w)) = true
  | Raise (Error e) =>
      output_wav (snd (SimpleTTS.generate text w)) = output_wav w
      /\ (e = ModelLoadError \/ e = FileNotFoundError reference_path
          \/ e = ModelError)
  | Raise (HTTPException _ _) => False
  end.
Proof.
  generate_cases w text; cbn; repeat split; auto;
    try (do 2 eexists; repeat split; [eassumption..]).
Qed.

Lemma generate_frame (text : Text) (w : World) :
  same_pipeline_state w (snd (SimpleTTS.generate text w)).
Proof.
  unfold same_pipeline_state. generate_cases w text; cbn; repeat split.
Qed.

Lemma synthesize_valid (w : World) (text : Text) (r : FileData) :
  reference_wav w = Some r -> strip text <> [] ->
  Z.of_nat (List.length text) <= 500 ->
  Api.synthesize text w
  = match SimpleTTS.generate text
            (set_log (log w ++ [(INFO, Synthesizing_text (firstn 50 text))]) w)
    with
    | (Return p, w') =>
        (Return (Api.mkFileResponse p "audio/wav" "synthesis.wav"), w')
    | (Raise (Error e), w') =>
        (Raise (HTTPException 500 (StrOf (Error e))),
         set_log (log w' ++ [(ERROR, Synthesis_failed (Error e))]) w')
    | (Raise (HTTPException c d), w') => (Raise (HTTPException c d), w')
    end.
Proof.
  intros R S L.
  unfold Api.synthesize, try_except, bind, get, ret, raise.
  rewrite R. cbn [exists_ negb].
  destruct text as [|c text]; [contradiction S; reflexivity|].
  destruct (strip (c :: text)) as [|c' s'] eqn:E; [contradiction S; reflexivity|].
  change (List.length (c' :: s') =? 0)%nat with false. cbv iota.
  destruct (Z.of_nat (List.length (c :: text)) >? 500) eqn:Len; [lia|].
  unfold logger at 1, modify.
  destruct (SimpleTTS.generate (c :: text) _) as [[p|[e|code d]] w'];
    reflexivity.
Qed.

Lemma generate_keeps_model (text : Text) (w : World) :
  tts_model w = true -> tts_model (snd (SimpleTTS.generate text w)) = true.
Proof.
  generate_cases w text; cbn; intros H; auto; discriminate.
Qed.

Lemma synthesize_precondition_stays (w : World) (text : Text) :
  reference_wav w = None \/ strip text = []
  \/ 500 < Z.of_nat (List.length text) ->
  exists detail,
    Api.synthesize text w = (Raise (HTTPException 400 (Message detail)), w).
Proof.
  intros H.
  unfold Api.synthesize, try_except, bind, get, ret, raise.
  destruct (reference_wav w) as [r|] eqn:R; cbn [exists_ negb];
    [|eexists; reflexivity].
  destruct text as [|c text]; [eexists; reflexivity|].
  destruct (strip (c :: text)) as [|c' s'] eqn:S; [eexists; reflexivity|].
  change (List.length (c' :: s') =? 0)%nat with false. cbv iota.
  destruct H as [H|[H|H]]; try discriminate.
  destruct (Z.of_nat (List.length (c :: text)) >? 500) eqn:L;
    [eexists; reflexivity|].
  lia.
Qed.

Lemma generate_succeeds (text : Text) (w : World) (r : FileData)
      (wav : AudioSegment.t) :
  reference_wav w = Some r ->
  tts_model w = true \/ load_ok (tts_backend w) = true ->
  synth (tts_backend w) text r = Some wav ->
  fst (SimpleTTS.generate text w) = Return SimpleTTS.output_path.
Proof.
  generate_cases w text; cbn; intros R M G; try reflexivity;
    try discriminate; try (destruct M; discriminate);
    injection R as ->; congruence.
Qed.

(** X14.  With a reference sample, a text that is not blank and has at
    most 500 characters, a model that is loaded or loads, and an adapter
    that produces audio, [POST /synthesize] returns the file
    [data/output.wav] as [audio/wav]; that file holds the generated audio,
    the model is loaded afterwards and the adapter was called once, with the
    text as sent. *)
Theorem synthesize_returns_generated_audio (w : World) (text : Text)
        (r : FileData) (wav : AudioSegment.t) :
  reference_wav w = Some r -> strip text <> [] ->
  Z.of_nat (List.length text) <= 500 ->
  tts_model w = true \/ load_ok (tts_backend w) = true ->
  synth (tts_backend w) text r = Some wav ->
  exists w',
    Api.synthesize text w
    = (Return (Api.mkFileResponse "data/output.wav" "audio/wav" "synthesis.wav"),
       w')
    /\ output_wav w' = Some wav
    /\ tts_model w' = true
    /\ tts_calls w' = tts_calls w ++ [text].
Proof.
  intros R S L M G. rewrite (synthesize_valid w text r R S L).
  set (w0 := set_log _ w).
  pose proof (generate_records_call text w0) as C.
  pose proof (generate_result text w0) as GR.
  pose proof (generate_succeeds text w0 r wav R M G) as GS.
  destruct (SimpleTTS.generate text w0) as [[p|e] w'].
  - cbn [fst snd] in *. injection GS as ->.
    destruct GR as (_ & _ & r' & wav' & R' & G' & O & T).
    change (reference_wav w0) with (reference_wav w) in R'.
    change (tts_backend w0) with (tts_backend w) in G'.
    rewrite R in R'. injection R' as <-. rewrite G in G'. injection G' as <-.
    exists w'. repeat split; assumption.
  - discriminate.
Qed.

(** X15.  A request that passes the three checks is never answered 400: it
    is served, or it is answered 500 because the model failed to load or to
    generate, and then the output file is untouched and the failure is
    logged. *)
Theorem valid_request_is_served_or_500 (w : World) (text : Text) (r : FileData) :
  reference_wav w = Some r -> strip text <> [] ->
  Z.of_nat (List.length text) <= 500 ->
  (exists w',
      Api.synthesize text w
      = (Return (Api.mkFileResponse "data/output.wav" "audio/wav"
                   "synthesis.wav"), w'))
  \/ (exists e w',
         Api.synthesize text w
         = (Raise (HTTPException 500 (StrOf (Error e))), w')
         /\ (e = ModelLoadError \/ e = ModelError)
         /\ output_wav w' = output_wav w
         /\ In (ERROR, Synthesis_failed (Error e)) (log w')).
Proof.
  intros R S L. rewrite (synthesize_valid w text r R S L).
  set (w0 := set_log _ w).
  pose proof (generate_result text w0) as GR.
  assert (NF : fst (SimpleTTS.generate text w0)
               <> Raise (Error (FileNotFoundError reference_path))).
  { assert (R0 : reference_wav w0 = Some r) by exact R. clearbody w0.
    revert R0. clear. generate_cases w0 text; cbn; intros R0;
      discriminate. }
  destruct (SimpleTTS.generate text w0) as [[p|[e|c d]] w'];
    cbn [fst snd] in *.
  - left. destruct GR as [-> _]. exists w'. reflexivity.
  - right. destruct GR as [O E]. exists e. eexists. split; [reflexivity|].
    split; [|split].
    + destruct E as [E|[E|E]]; auto. subst e. contradiction NF. reflexivity.
    + exact O.
    + cbn [log set_log]. apply in_or_app. right. left. reflexivity.
  - contradiction.
Qed.

(** X16.  [POST /synthesize] never touches the clips, the reference
    sample, the status file or the clock, and never unloads a loaded
    model. *)
Theorem synthesize_keeps_pipeline_state (w : World) (text : Text) :
  same_pipeline_state w (snd (Api.synthesize text w))
  /\ (tts_model w = true -> tts_model (snd (Api.synthesize text w)) = true).
Proof.
  assert (K : forall w0, same_pipeline_state w w0 ->
                         (tts_model w = true -> tts_model w0 = true) ->
              same_pipeline_state w
                (snd (match SimpleTTS.generate text w0 with
                      | (Return p, w') =>
                          (Return (Api.mkFileResponse p "audio/wav" "synthesis.wav"), w')
                      | (Raise (Error e), w') =>
                          (Raise (HTTPException 500 (StrOf (Error e))),
                           set_log (log w' ++ [(ERROR, Synthesis_failed (Error e))]) w')
                      | (Raise (HTTPException c d), w') =>
                          (Raise (HTTPException c d), w')
                      end))
              /\ (tts_model w = true ->
                  tts_model
                    (snd (match SimpleTTS.generate text w0 with
                      | (Return p, w') =>
                          (Return (Api.mkFileResponse p "audio/wav" "synthesis.wav"), w')
                      | (Raise (Error e), w') =>
                          (Raise (HTTPException 500 (StrOf (Error e))),
                           set_log (log w' ++ [(ERROR, Synthesis_failed (Error e))]) w')
                      | (Raise (HTTPException c d), w') =>
                          (Raise (HTTPException c d), w')
                      end)) = true)).
  { intros w0 F M. pose proof (generate_frame text w0) as GF.
    pose proof (generate_keeps_model text w0) as GM.
    destruct (SimpleTTS.generate text w0) as [[p|[e|c d]] w'];
      cbn [snd] in *; unfold same_pipeline_state in *; fields;
      (split; [intuition congruence | intros H; apply GM, M, H]). }
  assert (Same : same_pipeline_state w w)
    by (unfold same_pipeline_state; repeat split).
  destruct (reference_wav w) as [r|] eqn:R.
  - destruct (list_eq_dec N.eq_dec (strip text) []) as [S|S].
    + destruct (synthesize_precondition_stays w text) as [d ->]; auto.
    + destruct (Z_le_gt_dec (Z.of_nat (List.length text)) 500) as [L|L].
      * rewrite (synthesize_valid w text r R S L). apply K; [exact Same | auto].
      * destruct (synthesize_precondition_stays w text) as [d ->]; auto.
        right. right. lia.
  - destruct (synthesize_precondition_stays w text) as [d ->]; auto.
Qed.

(* ================================================================= *)
(** ** The upload handler *)

Import UploadApi.

Ltac run_upload :=
  cbv beta iota zeta delta
    [upload_audio stry sbind sret sraise lift sget api_logger export_clip
     create_task modify datetime_now_isoformat count_wav get
     world from_file fs_time api_log tasks set_world set_api_log set_tasks
     audio_dir model_dir status_file output_wav clock ticks log writes
     tts_backend tts_model tts_calls set_audio_dir set_model_dir
     set_status_file set_output_wav set_ticks set_log set_writes
     set_tts_model set_tts_calls].

Lemma upload_accepted_run (file : UploadFile) (s : Server)
      (audio : AudioSegment.t) :
  from_file s (input_format (content_type file)) (content file) = Some audio ->
  upload_audio file s
  = (Return (mkUploadResponse "success"
               (clip_count (world (uploaded s audio
                                     (Z.of_nat (String.length (content file))))))),
     uploaded s audio (Z.of_nat (String.length (content file)))).
Proof.
  destruct s as [[ad md sf ow ck tk lg wr be tm tc] ff ft al tks].
  run_upload. intros H. rewrite H. run_upload.
  destruct ad as [entries|]; reflexivity.
Qed.

Lemma upload_rejected_run (file : UploadFile) (s : Server) :
  from_file s (input_format (content_type file)) (content file) = None ->
  upload_audio file s
  = (Raise (HTTPException 500
              (StrOf (Error (CouldntDecodeError
                               (String.append "tmp."
                                  (input_format (content_type file))))))),
     mkServer
       (set_ticks (S (ticks (world s)))
          (set_audio_dir (mkdir [] (audio_dir (world s))) (world s)))
       (from_file s) (fs_time s)
       (api_log s
        ++ [(ERROR, Upload_failed
                      (Error (CouldntDecodeError
                                (String.append "tmp."
                                   (input_format (content_type file))))))])
       (tasks s)).
Proof.
  destruct s as [[ad md sf ow ck tk lg wr be tm tc] ff ft al tks].
  run_upload. intros H. rewrite H. reflexivity.
Qed.

Lemma substring_append_skip (a b : string) (m : nat) :
  substring (String.length a) m (String.append a b) = substring 0 m b.
Proof. induction a as [|c a IH]; [reflexivity | exact IH]. Qed.

Lemma substring_whole (b : string) : substring 0 (String.length b) b = b.
Proof. induction b as [|c b IH]; [reflexivity|]. simpl. rewrite IH. reflexivity. Qed.

Lemma length_append (a b : string) :
  String.length (String.append a b) = (String.length a + String.length b)%nat.
Proof. induction a as [|c a IH]; [reflexivity|]. simpl. rewrite IH. reflexivity. Qed.

Lemma endswith_append (a suffix : string) :
  endswith (String.append a suffix) suffix = true.
Proof.
  unfold endswith. rewrite length_append.
  replace (String.length a + String.length suffix - String.length suffix)%nat
    with (String.length a) by lia.
  rewrite substring_append_skip, substring_whole, String.eqb_refl.
  rewrite andb_true_r. apply Nat.leb_le. lia.
Qed.

Lemma upload_name_wav (s : Server) : endswith (upload_name s) ".wav" = true.
Proof. apply endswith_append. Qed.


Lemma glob_write_in (c : File) (entries : list File) :
  is_wav c = true -> In c (filter is_wav (write_file c entries)).
Proof.
  intros Q. induction entries as [|e rest IH]; simpl.
  - rewrite Q. left. reflexivity.
  - destruct (String.eqb (name e) (name c)); simpl.
    + rewrite Q. left. reflexivity.
    + destruct (is_wav e); [right|]; exact IH.
Qed.

Lemma glob_write_length (c : File) (entries : list File) :
  is_wav c = true ->
  List.length (filter is_wav (write_file c entries))
  = if existsb (same_name c) (filter is_wav entries)
    then List.length (filter is_wav entries)
    else S (List.length (filter is_wav entries)).
Proof.
  intros Q. induction entries as [|e rest IH]; simpl.
  - rewrite Q. reflexivity.
  - destruct (String.eqb (name e) (name c)) eqn:E; simpl.
    + assert (Qe : is_wav e = true).
      { apply String.eqb_eq in E. unfold is_wav in *. rewrite E. exact Q. }
      rewrite Q, Qe. simpl. unfold same_name at 1. rewrite E. reflexivity.
    + destruct (is_wav e); simpl.
      * unfold same_name at 1. rewrite E. simpl. rewrite IH.
        destruct (existsb _ _); reflexivity.
      * exact IH.
Qed.

Lemma train_returns_with_decodable_clip (w : World) (f : File) :
  In f (clips_on_disk w) -> decodable f = true -> fst (train w) = Return tt.
Proof.
  intros I D. destruct (clips_in_order w) as [|g [|h rest]] eqn:E.
  - apply sorted_nil_iff in E. rewrite E in I. contradiction.
  - pose proof (clips_on_disk_single w g E) as C. rewrite C in I.
    destruct I as [<-|[]].
    rewrite (train_single_clip w g (pcm g) E (decodable_data g D)).
    reflexivity.
  - rewrite (train_many_clips w g h rest E). reflexivity.
Qed.

Lemma clips_on_disk_uploaded (s : Server) (audio : AudioSegment.t) (bytes : Z) :
  clips_on_disk (world (uploaded s audio bytes))
  = filter is_wav (write_file (uploaded_clip s audio)
                     (entries_of (audio_dir (world s)))).
Proof. reflexivity. Qed.

Lemma clips_on_disk_entries (w : World) :
  clips_on_disk w = filter is_wav (entries_of (audio_dir w)).
Proof. unfold clips_on_disk, glob_wav. destruct (audio_dir w); reflexivity. Qed.


(** X18.  An upload the decoder rejects is answered 500; the clips on disk,
    the reference sample and the status are as before, no training is
    scheduled and the failure is logged. *)
Theorem rejected_upload_changes_no_clip (file : UploadFile) (s : Server) :
  from_file s (input_format (content_type file)) (content file) = None ->
  exists e s',
    upload_audio file s = (Raise (HTTPException 500 (StrOf (Error e))), s')
    /\ clips_on_disk (world s') = clips_on_disk (world s)
    /\ tasks s' = tasks s
    /\ reference_wav (world s') = reference_wav (world s)
    /\ status_file (world s') = status_file (world s)
    /\ In (ERROR, Upload_failed (Error e)) (api_log s').
Proof.
  intros H. do 2 eexists. split; [apply (upload_rejected_run file s H)|].
  split; [|repeat split].
  - unfold clips_on_disk. cbn [world audio_dir set_ticks set_audio_dir].
    apply glob_wav_mkdir.
  - cbn [api_log]. apply in_or_app. right. left. reflexivity.
Qed.

Lemma delayed_train_finds_audio (w : World) (c : File) :
  In c (clips_on_disk w) ->
  fst (delayed_train w)
  <> Raise (Error (ValueError "No audio files found to concatenate")).
Proof.
  unfold delayed_train. intros I R.
  destruct (clips_in_order w) as [|g [|h rest]] eqn:E.
  - apply sorted_nil_iff in E. rewrite E in I. contradiction I.
  - destruct (data g) as [a|raw] eqn:D.
    + rewrite (train_single_clip _ g a E D) in R. discriminate.
    + rewrite (train_single_undecodable _ g raw E D) in R. discriminate.
  - rewrite (train_many_clips _ g h rest E) in R. discriminate.
Qed.

Lemma ready_after_delayed_train (w w' : World) :
  delayed_train w = (Return tt, w') ->
  exists t,
    Api.get_status w'
    = (Return (Api.mkStatusResponse "ready" (clip_count w) (Some t)), w').
Proof.
  unfold delayed_train. intros Tr. exists (clock w (S (ticks w))).
  destruct (train_shape w) as [(branch & a & E)|(before & e & E)];
    rewrite E in Tr; [|discriminate]. injection Tr as <-.
  apply trained_status_response.
Qed.

Lemma clip_count_positive (w : World) (c : File) :
  In c (clips_on_disk w) -> 1 <= clip_count w.
Proof.
  intros I. unfold clip_count. destruct (clips_on_disk w); [contradiction I|].
  simpl List.length. lia.
Qed.

Lemma run_task_returned (s1 : Server) (n : nat) (w' : World) :
  tasks s1 = S n -> delayed_train (world s1) = (Return tt, w') ->
  run_task s1 = (Return tt, set_tasks n (set_world w' s1)).
Proof.
  intros K Tr. unfold run_task. rewrite K, Tr. reflexivity.
Qed.

(** X19.  After an accepted upload the training task it scheduled cannot
    fail for lack of audio, and whenever that run returns, running the task
    uses it up and [GET /status] then answers "ready" with the very count
    the upload response gave. *)
Theorem upload_then_training_is_ready (file : UploadFile) (s : Server)
        (audio : AudioSegment.t) :
  from_file s (input_format (content_type file)) (content file) = Some audio ->
  exists n s1,
    upload_audio file s = (Return (mkUploadResponse "success" n), s1)
    /\ 1 <= n
    /\ fst (delayed_train (world s1))
       <> Raise (Error (ValueError "No audio files found to concatenate"))
    /\ forall w',
         delayed_train (world s1) = (Return tt, w') ->
         run_task s1 = (Return tt, set_tasks (tasks s) (set_world w' s1))
         /\ exists t,
              Api.get_status w'
              = (Return (Api.mkStatusResponse "ready" n (Some t)), w').
Proof.
  intros H.
  pose proof (upload_accepted_run file s audio H) as U.
  assert (I : In (uploaded_clip s audio)
                 (clips_on_disk
                    (world (uploaded s audio
                              (Z.of_nat (String.length (content file))))))).
  { rewrite clips_on_disk_uploaded. apply glob_write_in, upload_name_wav. }
  assert (K : tasks (uploaded s audio (Z.of_nat (String.length (content file))))
              = S (tasks s)) by reflexivity.
  revert U I K.
  generalize (uploaded s audio (Z.of_nat (String.length (content file)))).
  intros s1 U I K.
  exists (clip_count (world s1)), s1.
  split; [exact U|].
  split; [exact (clip_count_positive (world s1) _ I)|].
  split; [exact (delayed_train_finds_audio (world s1) _ I)|].
  intros w' Tr. split.
  - exact (run_task_returned s1 (tasks s) w' K Tr).
  - exact (ready_after_delayed_train (world s1) w' Tr).
Qed.

(** X20.  The first accepted upload into a directory without clips makes,
    once its training task has run, a reference sample out of that upload
    alone: its audio, cut to the trailing 20000 ms. *)
Theorem first_upload_becomes_reference (file : UploadFile) (s : Server)
        (audio : AudioSegment.t) :
  clips_on_disk (world s) = [] ->
  from_file s (input_format (content_type file)) (content file) = Some audio ->
  exists s1 s2,
    upload_audio file s = (Return (mkUploadResponse "success" 1), s1)
    /\ run_task s1 = (Return tt, s2)
    /\ reference_wav (world s2) = Some (Wav (keep_last audio)).
Proof.
  intros E H.
  set (s1 := uploaded s audio (Z.of_nat (String.length (content file)))).
  assert (Q : is_wav (uploaded_clip s audio) = true) by apply upload_name_wav.
  assert (C : clips_on_disk (world s1) = [uploaded_clip s audio]).
  { pose proof (glob_write_in (uploaded_clip s audio)
                  (entries_of (audio_dir (world s))) Q) as I.
    pose proof (glob_write_length (uploaded_clip s audio)
                  (entries_of (audio_dir (world s))) Q) as L.
    rewrite <- clips_on_disk_entries, E in L. simpl in L.
    unfold s1. rewrite clips_on_disk_uploaded.
    destruct (filter is_wav _) as [|c [|c' l]]; try discriminate.
    destruct I as [->|[]]. reflexivity. }
  pose proof (train_single_clip (world s1) (uploaded_clip s audio) audio
                (clips_in_order_single _ _ C) eq_refl) as T.
  exists s1. eexists. split; [|split].
  - rewrite (upload_accepted_run file s audio H). fold s1.
    unfold clip_count. rewrite C. reflexivity.
  - unfold run_task, delayed_train. cbn [tasks s1 uploaded].
    fold s1. rewrite T. reflexivity.
  - reflexivity.
Qed.

(** X21.  The order in which a run takes the clips holds exactly the clips
    listed, is ascending in modification time, and keeps the listing order
    among clips of the same modification time. *)
Theorem clips_processing_order (w : World) :
  Permutation (clips_in_order w) (clips_on_disk w)
  /\ ascending st_mtime (clips_in_order w)
  /\ forall t,
       filter (fun f => st_mtime f =? t) (clips_in_order w)
       = filter (fun f => st_mtime f =? t) (clips_on_disk w).
Proof.
  split; [apply sorted_perm|]. split; [apply sorted_ascending|].
  intros t. apply sorted_stable.
Qed.

(** X22.  [generate] looks for the reference sample only after the model is
    in place: without a reference, and with a model that is loaded or loads,
    it raises [FileNotFoundError], leaves the output file alone and leaves
    the model loaded. *)
Theorem generate_without_reference (text : Text) (w : World) :
  reference_wav w = None ->
  tts_model w = true \/ load_ok (tts_backend w) = true ->
  fst (SimpleTTS.generate text w)
  = Raise (Error (FileNotFoundError reference_path))
  /\ output_wav (snd (SimpleTTS.generate text w)) = output_wav w
  /\ tts_model (snd (SimpleTTS.generate text w)) = true.
Proof.
  generate_cases w text; cbn; intros R M; try discriminate;
    try (destruct M; discriminate); repeat split.
Qed.

(* ================================================================= *)
(** ** The further properties on the example worlds *)

Lemma train_two_clips : train two_clips = (Return tt, after_two_clips).
Proof. vm_compute. reflexivity. Qed.

Lemma train_old_and_long :
  train old_and_long = (Return tt, snd (train old_and_long)).
Proof.
  rewrite (train_many_clips old_and_long clip_a long_clip [] eq_refl).
  reflexivity.
Qed.

Lemma failed_run_keeps_reference_witness :
  reference_wav (snd (train fresh_world)) = reference_wav fresh_world
  /\ status_file (snd (train fresh_world))
     = Some (JsonText (error_record fresh_world))
  /\ In (ERROR, Training_failed
                  (Error (ValueError "No audio files found to concatenate")))
        (log (snd (train fresh_world)))
  /\ writes (snd (train fresh_world))
     = writes fresh_world
       ++ [WriteStatus (training_record fresh_world);
           WriteStatus (error_record fresh_world)].
Proof.
  apply (failed_run_keeps_reference fresh_world (snd (train fresh_world))
           (Error (ValueError "No audio files found to concatenate"))).
  vm_compute. reflexivity.
Defined.

Lemma reference_within_ceiling_witness :
  exists ref,
    reference_wav after_two_clips = Some (Wav ref)
    /\ 0 <= AudioSegment.len ref <= 20000.
Proof.
  apply (reference_within_ceiling two_clips after_two_clips train_two_clips).
Defined.

Lemma older_clips_fall_out_witness :
  clips_in_order old_and_long = [clip_a] ++ [long_clip]
  /\ total_duration [long_clip] >= 20000
  /\ reference_wav (snd (train old_and_long))
     = Some (Wav (keep_last (flat_map pcm [long_clip])))
  /\ (total_duration [long_clip] = 20000 ->
      reference_wav (snd (train old_and_long))
      = Some (Wav (flat_map pcm [long_clip]))).
Proof.
  assert (E : clips_in_order old_and_long = [clip_a] ++ [long_clip])
    by reflexivity.
  assert (D : total_duration [long_clip] >= 20000).
  { unfold total_duration, fold_right, duration.
    change (pcm long_clip) with long_audio. rewrite len_long_audio. lia. }
  split; [exact E | split; [exact D|]].
  apply (older_clips_fall_out old_and_long _ [clip_a] [long_clip]
           train_old_and_long E D).
Defined.

Lemma status_after_successful_run_witness :
  Api.get_status after_two_clips
  = (Return (Api.mkStatusResponse "ready" (clip_count two_clips)
               (Some (clock two_clips (S (ticks two_clips))))),
     after_two_clips)
  /\ fst (get_status after_two_clips)
     = Return (status_record "ready" (clip_count two_clips)
                 (clock two_clips (S (ticks two_clips))) true).
Proof.
  apply (status_after_successful_run two_clips after_two_clips train_two_clips).
Defined.

Lemma stored_status_ignores_the_clips_witness :
  fst (get_status (set_audio_dir None after_two_clips))
  = fst (get_status after_two_clips)
  /\ fst (Api.get_status (set_audio_dir None after_two_clips))
     = fst (Api.get_status after_two_clips).
Proof.
  apply (stored_status_ignores_the_clips after_two_clips
           (JsonText (ready_record two_clips)) None).
  reflexivity.
Defined.

Lemma status_record_missing_key_witness :
  (lookup "status" [] = None \/ lookup "audio_count" [] = None)
  /\ lookup "status" [] = None
  /\ Api.get_status (with_status (JDict []))
     = (Raise (HTTPException 500 (StrOf (Error (KeyError "status")))),
        set_log (log (with_status (JDict []))
                 ++ [(ERROR, Failed_to_get_status (Error (KeyError "status")))])
                (with_status (JDict []))).
Proof.
  split; [left; reflexivity|].
  apply (status_record_missing_key (with_status (JDict [])) []);
    [reflexivity | right; reflexivity].
Defined.

Lemma status_record_without_last_trained_witness :
  Api.get_status
    (with_status (JDict [("status", JStr "ready"); ("audio_count", JInt 2)]))
  = (Return (Api.mkStatusResponse "ready" 2 None),
     with_status (JDict [("status", JStr "ready"); ("audio_count", JInt 2)])).
Proof.
  apply (status_record_without_last_trained
           (with_status (JDict [("status", JStr "ready");
                                ("audio_count", JInt 2)]))
           [("status", JStr "ready"); ("audio_count", JInt 2)]);
    reflexivity.
Defined.

Lemma status_record_not_an_object_witness :
  Api.get_status (with_status (JList []))
  = (Raise (HTTPException 500 (StrOf (Error TypeError))),
     set_log (log (with_status (JList []))
              ++ [(ERROR, Failed_to_get_status (Error TypeError))])
             (with_status (JList []))).
Proof.
  apply (status_record_not_an_object (with_status (JList [])) (JList []));
    [reflexivity | discriminate].
Defined.

Lemma blank_text_is_refused_witness :
  forallb isspace [32; 10; 9]%N = true
  <-> Api.synthesize [32; 10; 9]%N after_two_clips
      = (Raise (HTTPException 400 (Message "Text cannot be empty")),
         after_two_clips).
Proof.
  apply (blank_text_is_refused after_two_clips [32; 10; 9]%N
           (Wav [1; 2; 3; 4; 5])).
  reflexivity.
Defined.

Lemma synthesize_returns_generated_audio_witness :
  exists w',
    Api.synthesize [72; 105]%N ready_to_speak
    = (Return (Api.mkFileResponse "data/output.wav" "audio/wav" "synthesis.wav"),
       w')
    /\ output_wav w' = Some (repeat 0 1000%nat)
    /\ tts_model w' = true
    /\ tts_calls w' = tts_calls ready_to_speak ++ [[72; 105]%N].
Proof.
  apply (synthesize_returns_generated_audio ready_to_speak [72; 105]%N
           (Wav [1; 2; 3; 4; 5]) (repeat 0 1000%nat)).
  - reflexivity.
  - vm_compute. discriminate.
  - vm_compute. discriminate.
  - right. reflexivity.
  - reflexivity.
Defined.

Lemma valid_request_is_served_or_500_witness :
  (exists w',
      Api.synthesize [72; 105]%N after_two_clips
      = (Return (Api.mkFileResponse "data/output.wav" "audio/wav"
                   "synthesis.wav"), w'))
  \/ (exists e w',
         Api.synthesize [72; 105]%N after_two_clips
         = (Raise (HTTPException 500 (StrOf (Error e))), w')
         /\ (e = ModelLoadError \/ e = ModelError)
         /\ output_wav w' = output_wav after_two_clips
         /\ In (ERROR, Synthesis_failed (Error e)) (log w')).
Proof.
  apply (valid_request_is_served_or_500 after_two_clips [72; 105]%N
           (Wav [1; 2; 3; 4; 5])).
  - reflexivity.
  - vm_compute. discriminate.
  - vm_compute. discriminate.
Defined.

Lemma synthesize_invokes_adapter_witness :
  tts_calls (snd (Api.synthesize [72; 105]%N after_two_clips))
  = tts_calls after_two_clips ++ [[72; 105]%N].
Proof.
  apply (synthesize_invokes_adapter after_two_clips [72; 105]%N
           (Wav [1; 2; 3; 4; 5])).
  - reflexivity.
  - vm_compute. discriminate.
  - vm_compute. discriminate.
Defined.

Lemma generate_without_reference_witness :
  fst (SimpleTTS.generate [72; 105]%N (set_model_dir None ready_to_speak))
  = Raise (Error (FileNotFoundError reference_path))
  /\ output_wav (snd (SimpleTTS.generate [72; 105]%N
                        (set_model_dir None ready_to_speak)))
     = output_wav (set_model_dir None ready_to_speak)
  /\ tts_model (snd (SimpleTTS.generate [72; 105]%N
                       (set_model_dir None ready_to_speak))) = true.
Proof.
  apply (generate_without_reference [72; 105]%N
           (set_model_dir None ready_to_speak));
    [reflexivity | right; reflexivity].
Defined.


Lemma rejected_upload_changes_no_clip_witness :
  exists e s',
    upload_audio wav_upload fresh_server
    = (Raise (HTTPException 500 (StrOf (Error e))), s')
    /\ clips_on_disk (world s') = clips_on_disk (world fresh_server)
    /\ tasks s' = tasks fresh_server
    /\ reference_wav (world s') = reference_wav (world fresh_server)
    /\ status_file (world s') = status_file (world fresh_server)
    /\ In (ERROR, Upload_failed (Error e)) (api_log s').
Proof.
  apply (rejected_upload_changes_no_clip wav_upload fresh_server).
  reflexivity.
Defined.

Lemma upload_then_training_is_ready_witness :
  delayed_train (world (snd (upload_audio webm_upload fresh_server)))
  = (Return tt,
     snd (delayed_train (world (snd (upload_audio webm_upload fresh_server)))))
  /\ exists n s1,
       upload_audio webm_upload fresh_server
       = (Return (mkUploadResponse "success" n), s1)
       /\ 1 <= n
       /\ fst (delayed_train (world s1))
          <> Raise (Error (ValueError "No audio files found to concatenate"))
       /\ forall w',
            delayed_train (world s1) = (Return tt, w') ->
            run_task s1
            = (Return tt, set_tasks (tasks fresh_server) (set_world w' s1))
            /\ exists t,
                 Api.get_status w'
                 = (Return (Api.mkStatusResponse "ready" n (Some t)), w').
Proof.
  split; [vm_compute; reflexivity|].
  apply (upload_then_training_is_ready webm_upload fresh_server [1; 2; 3]).
  reflexivity.
Defined.

Lemma first_upload_becomes_reference_witness :
  exists s1 s2,
    upload_audio webm_upload fresh_server
    = (Return (mkUploadResponse "success" 1), s1)
    /\ run_task s1 = (Return tt, s2)
    /\ reference_wav (world s2) = Some (Wav (keep_last [1; 2; 3])).
Proof.
  apply (first_upload_becomes_reference webm_upload fresh_server [1; 2; 3]);
    reflexivity.
Defined.
